(** * stellenwerk-scrapper: the crawl-and-extract pipeline of
      [list_of_jobs4.py], embedded and verified.

    The script fetches paginated index pages, follows every listing link,
    extracts eight string fields per listing and writes each batch of
    records to a CSV file.  The embedding keeps the script's structure:
    one Rocq function per Python function, the three nested loops of
    [scrape_in_batches] as three recursive functions, and every effect
    (HTTP request, sleep, file write, clock read) threaded through an
    explicit [World].

    External libraries are modelled at their documented interface:
    - [requests.get] followed by [raise_for_status] and the
      [BeautifulSoup(.., 'html.parser')] constructor is one primitive that
      either fails or yields a parsed tree ([html.parser] accepts any text);
    - a parsed tree is a rose tree of tags and text nodes, searched in
      document order as [Tag.find] / [Tag.select] do;
    - [csv.DictWriter] with its default dialect (comma, double quote,
      minimal quoting, CRLF line terminator).
    Characters are [ascii] values standing for code points below 256;
    [print] calls are diagnostics and are left out; every fetch is taken
    to return (an answer or an exception), and writing a file is taken to
    succeed. *)

From stdpp Require Import base strings list gmap pretty.
From Stdlib Require Import Ascii ZArith Lia.

Set Warnings "-register-all,-clear-no-such-hyp".
Set Default Goal Selector "!".

Local Open Scope string_scope.
Local Open Scope list_scope.

(** ** Python string operations used by the script *)

Module PyStr.

(** [s[:n]] *)
Fixpoint take (n : nat) (s : string) : string :=
  match n, s with
  | S n', String c s' => String c (take n' s')
  | _, _ => EmptyString
  end.

(** [s.startswith(p)] *)
Fixpoint startswith (p s : string) : bool :=
  match p, s with
  | EmptyString, _ => true
  | String a p', String b s' => if decide (a = b) then startswith p' s' else false
  | String _ _, EmptyString => false
  end.

(** [p in s] *)
Fixpoint contains (p s : string) : bool :=
  startswith p s ||
  match s with
  | EmptyString => false
  | String _ s' => contains p s'
  end.

(** [c.isspace()] on code points below 256. *)
Definition isspace (c : ascii) : bool :=
  let n := Ascii.N_of_ascii c in
  ((9 <=? n) && (n <=? 13) || (28 <=? n) && (n <=? 32)
   || (n =? 133) || (n =? 160))%N.

Definition lower_char (c : ascii) : ascii :=
  let n := Ascii.N_of_ascii c in
  if ((65 <=? n) && (n <=? 90)
      || (192 <=? n) && (n <=? 222) && negb (n =? 215))%N
  then ascii_of_N (n + 32) else c.

(** [s.lower()] *)
Fixpoint lower (s : string) : string :=
  match s with
  | EmptyString => EmptyString
  | String c s' => String (lower_char c) (lower s')
  end.

Fixpoint lstrip (s : string) : string :=
  match s with
  | EmptyString => EmptyString
  | String c s' => if isspace c then lstrip s' else s
  end.

Fixpoint rstrip (s : string) : string :=
  match s with
  | EmptyString => EmptyString
  | String c s' =>
      match rstrip s' with
      | EmptyString => if isspace c then EmptyString else String c EmptyString
      | r => String c r
      end
  end.

(** [s.strip()] *)
Definition strip (s : string) : string := rstrip (lstrip s).

(** [sep.join(l)] *)
Fixpoint join (sep : string) (l : list string) : string :=
  match l with
  | [] => EmptyString
  | [x] => x
  | x :: l' => x +:+ sep +:+ join sep l'
  end.

(** Truthiness of a string: [bool(s)]. *)
Definition nonempty (s : string) : bool :=
  match s with EmptyString => false | String _ _ => true end.

(** Number of occurrences of one character: [s.count(c)]. *)
Fixpoint count (c : ascii) (s : string) : nat :=
  match s with
  | EmptyString => 0
  | String a s' => (if decide (a = c) then 1 else 0) + count c s'
  end.

End PyStr.

(** ** Parsed pages (the part of [bs4] the script relies on) *)

Module Bs4.

(** The two attributes the script inspects.  [html.parser] stores
    [class] as a list of names and [href] as one string. *)
Record Attrs : Type := mkAttrs {
  attr_class : option (list string);
  attr_href : option string
}.

Inductive Node : Type :=
| NavigableString (text : string)
| Tag (name : string) (attrs : Attrs) (contents : list Node).

(** A [BeautifulSoup] object: the top-level nodes of the document. *)
Definition Soup : Type := list Node.

(** A node followed by everything below it, in document order. *)
Fixpoint subtree (n : Node) : list Node :=
  n :: match n with
       | NavigableString _ => []
       | Tag _ _ cs => flat_map subtree cs
       end.

(** [tag.descendants] / [soup.descendants] *)
Definition descendants (n : Node) : list Node :=
  match n with
  | NavigableString _ => []
  | Tag _ _ cs => flat_map subtree cs
  end.

Definition soup_descendants (soup : Soup) : list Node :=
  flat_map subtree soup.

(** [_all_strings(strip=True)]: every text node, stripped, empty ones
    skipped. *)
Definition stripped_strings (nodes : list Node) : list string :=
  omap (fun n =>
          match n with
          | NavigableString s =>
              let s' := PyStr.strip s in
              if PyStr.nonempty s' then Some s' else None
          | Tag _ _ _ => None
          end) nodes.

(** [tag.get_text(separator=sep, strip=True)] *)
Definition get_text (sep : string) (n : Node) : string :=
  PyStr.join sep (stripped_strings (descendants n)).

(** [soup.get_text(separator=sep, strip=True)] *)
Definition soup_get_text (sep : string) (soup : Soup) : string :=
  PyStr.join sep (stripped_strings (soup_descendants soup)).

Definition is_tag (n : Node) : bool :=
  match n with Tag _ _ _ => true | NavigableString _ => false end.

(** [soup.find(...)]: the first tag, in document order, accepted by the
    matcher; text nodes never match. *)
Definition find (p : Node -> bool) (soup : Soup) : option Node :=
  List.find (fun n => is_tag n && p n) (soup_descendants soup).

(** [soup.find_all(...)] *)
Definition find_all (p : Node -> bool) (soup : Soup) : list Node :=
  List.filter (fun n => is_tag n && p n) (soup_descendants soup).

(** Matcher for a tag name: [find('h1')]. *)
Definition has_name (nm : string) (n : Node) : bool :=
  match n with
  | Tag name _ _ => bool_decide (name = nm)
  | NavigableString _ => false
  end.

(** Matching an attribute value against a matcher [f]: a list-valued
    attribute matches when one of its items does, or when the items
    joined by a space do; a missing attribute is handed to the matcher
    as [None]. *)
Definition class_matches (f : option string -> bool) (n : Node) : bool :=
  match n with
  | Tag _ a _ =>
      match attr_class a with
      | Some cls =>
          existsb (fun c => f (Some c)) cls || f (Some (PyStr.join " " cls))
      | None => f None
      end
  | NavigableString _ => false
  end.

(** [class_='company-name'] *)
Definition has_class (cls : string) : Node -> bool :=
  class_matches (fun x =>
                   match x with
                   | Some s => bool_decide (s = cls)
                   | None => false
                   end).

(** [class_=lambda x: x and kw in x.lower()] *)
Definition class_contains (kw : string) : Node -> bool :=
  class_matches (fun x =>
                   match x with
                   | Some s => PyStr.nonempty s && PyStr.contains kw (PyStr.lower s)
                   | None => false
                   end).

(** ['href' in tag.attrs] and [tag['href']] *)
Definition href (n : Node) : option string :=
  match n with
  | Tag _ a _ => attr_href a
  | NavigableString _ => None
  end.

(** [lambda tag: tag.name == "a" and phrase in
    tag.get_text(strip=True).lower()] *)
Definition anchor_with_text (phrase : string) (n : Node) : bool :=
  has_name "a" n && PyStr.contains phrase (PyStr.lower (get_text "" n)).

(** [soup.select('a[href*="needle"]')] *)
Definition select_a_href_contains (needle : string) (soup : Soup) : list Node :=
  List.filter (fun n =>
                 has_name "a" n &&
                 match href n with
                 | Some h => PyStr.contains needle h
                 | None => false
                 end) (soup_descendants soup).

(** Python's [a or b] on results of [find]: a tag is always truthy. *)
Definition or_else (a b : option Node) : option Node :=
  match a with Some _ => a | None => b end.

End Bs4.

(** ** The outside world *)

(** What [requests.get(url, headers=HEADERS)], [raise_for_status()] and
    the parser together deliver: an exception (transport error or
    non-success status) or the parsed page. *)
Inductive Response : Type :=
| Failure
| Page (soup : Bs4.Soup).

(** Argument of [time.sleep]: a whole number of seconds, or that number
    plus [random.random()]. *)
Inductive Duration : Type :=
| Fixed (secs : Z)
| Jittered (secs : Z).

Inductive Event : Type :=
| EGet (url : string)
| ESleep (d : Duration)
| EWrite (filename : string).

(** The effects performed so far, oldest first, and the files on disk. *)
Record World : Type := mkWorld {
  trace : list Event;
  files : gmap string string
}.

(** Everything the script does not control.  The server may answer
    differently as the crawl proceeds, so it sees the history; the clock
    is already formatted as [strftime('%Y-%m-%d_%H-%M')]; [list_set] is
    [list(set(l))], whose order Python leaves unspecified. *)
Record Env : Type := mkEnv {
  server : list Event -> string -> Response;
  clock : list Event -> string;
  list_set : list string -> list string;
  list_set_NoDup : forall l, NoDup (list_set l);
  list_set_elem : forall l x, x ∈ list_set l <-> x ∈ l
}.

(** ** Effects as state passing *)

Definition Eff (A : Type) : Type := World -> A * World.

Global Instance eff_ret : MRet Eff := fun A x w => (x, w).
Global Instance eff_bind : MBind Eff :=
  fun A B f m w => let r := m w in f r.1 r.2.

Definition log (e : Event) (w : World) : World :=
  {| trace := trace w ++ [e]; files := files w |}.

(** ** Constants of the script *)

Definition BASE_URL : string := "https://www.stellenwerk.de/hamburg".
Definition HOST : string := "https://www.stellenwerk.de".
Definition DELAY : Z := 3.
Definition BATCH_SIZE : nat := 5.
Definition PAUSE_BETWEEN_BATCHES : Z := 10.
Definition NA : string := "N/A".

(** The dictionary built by [scrape_job_details]: always the same eight
    keys, hence a record. *)
Record Job : Type := mkJob {
  Title : string;
  Company : string;
  Location : string;
  Salary : string;
  PostedDate : string;
  URL : string;
  DeinJob : string;
  DeinProfil : string
}.

Definition fieldnames : list string :=
  ["Title"; "Company"; "Location"; "Salary"; "Posted Date"; "URL";
   "Dein Job"; "Dein Profil"].

(** [rowdict.get(key) for key in fieldnames] *)
Definition row_of_job (j : Job) : list string :=
  [Title j; Company j; Location j; Salary j; PostedDate j; URL j;
   DeinJob j; DeinProfil j].

(** ** [csv.writer], default dialect *)

Module Csv.

Definition quotechar : ascii := "034"%char.
Definition delimiter : ascii := ","%char.
Definition CR : ascii := "013"%char.
Definition LF : ascii := "010"%char.
Definition lineterminator : string := String CR (String LF EmptyString).

Definition special (c : ascii) : bool :=
  bool_decide (c = delimiter) || bool_decide (c = quotechar)
  || bool_decide (c = CR) || bool_decide (c = LF).

Fixpoint has_special (s : string) : bool :=
  match s with
  | EmptyString => false
  | String c s' => special c || has_special s'
  end.

(** Inside a quoted field every quote character is doubled. *)
Fixpoint escape (s : string) : string :=
  match s with
  | EmptyString => EmptyString
  | String c s' =>
      if decide (c = quotechar) then String c (String c (escape s'))
      else String c (escape s')
  end.

Definition quoted (s : string) : string :=
  String quotechar (escape s +:+ String quotechar EmptyString).

(** [QUOTE_MINIMAL] *)
Definition field (s : string) : string :=
  if has_special s then quoted s else s.

(** [writer.writerow(fields)]; a record made of one empty field is
    written as an empty quoted field. *)
Definition row (fields : list string) : string :=
  (if decide (fields = [EmptyString]) then quoted EmptyString
   else PyStr.join (String delimiter EmptyString) (field <$> fields))
  +:+ lineterminator.

(** [writer.writerows(rows)] *)
Fixpoint writerows (rows : list (list string)) : string :=
  match rows with
  | [] => EmptyString
  | r :: rows' => row r +:+ writerows rows'
  end.

(** [writeheader()] followed by [writerows(jobs)]. *)
Definition document (jobs : list Job) : string :=
  row fieldnames +:+ writerows (row_of_job <$> jobs).

(** Lines of a file, counted by their line feeds. *)
Definition line_count (content : string) : nat := PyStr.count LF content.

End Csv.

(** ** The script *)

Section Scraper.

Context (env : Env).

(** *** Primitive effects *)

Definition requests_get (url : string) : Eff Response :=
  fun w => (server env (trace w) url, log (EGet url) w).

Definition time_sleep (d : Duration) : Eff unit :=
  fun w => (tt, log (ESleep d) w).

Definition now_strftime : Eff string :=
  fun w => (clock env (trace w), w).

(** [open(filename, 'w', ...)] and the writes that follow: the file is
    created or truncated, then holds exactly [content]. *)
Definition write_file (filename content : string) : Eff unit :=
  fun w => (tt, {| trace := trace w ++ [EWrite filename];
                   files := <[filename := content]> (files w) |}).

(** *** [scrape_click_value] (lines 20-45) *)

Definition scrape_click_value (url : string) : Eff string :=
  response ← requests_get url;
  match response with
  | Failure => mret NA
  | Page soup =>
      let content_elem :=
        Bs4.find (fun n => Bs4.has_name "div" n
                           && Bs4.class_contains "description" n) soup in
      let content :=
        match content_elem with
        | Some e => Bs4.get_text " " e
        | None => Bs4.soup_get_text " " soup
        end in
      mret (PyStr.take 200 content)
  end.

(** *** [scrape_job_details] (lines 47-108) *)

(** [elem.get_text(strip=True) if elem else "N/A"] *)
Definition text_or_na (elem : option Bs4.Node) : string :=
  match elem with
  | Some e => Bs4.get_text "" e
  | None => NA
  end.

(** Lines 80-81 and 90-91: [if not link.startswith("http"): link =
    "https://www.stellenwerk.de" + link]. *)
Definition absolute (link : string) : string :=
  if PyStr.startswith "http" link then link else HOST +:+ link.

(** Lines 75-83, and again lines 86-93 with the other phrase. *)
Definition follow_anchor (phrase : string) (soup : Bs4.Soup) : Eff string :=
  match Bs4.find (Bs4.anchor_with_text phrase) soup with
  | Some anchor =>
      match Bs4.href anchor with
      | Some link => scrape_click_value (absolute link)
      | None => mret NA
      end
  | None => mret NA
  end.

Definition title_elem (soup : Bs4.Soup) : option Bs4.Node :=
  Bs4.or_else (Bs4.find (Bs4.has_name "h1") soup)
              (Bs4.find (Bs4.class_contains "title") soup).

Definition company_elem (soup : Bs4.Soup) : option Bs4.Node :=
  Bs4.or_else (Bs4.find (Bs4.has_class "company-name") soup)
    (Bs4.or_else (Bs4.find (Bs4.class_contains "employer") soup)
                 (Bs4.find (Bs4.has_name "h2") soup)).

Definition location_elem (soup : Bs4.Soup) : option Bs4.Node :=
  Bs4.or_else (Bs4.find (Bs4.has_class "job-location") soup)
              (Bs4.find (Bs4.class_contains "location") soup).

Definition salary_elem (soup : Bs4.Soup) : option Bs4.Node :=
  Bs4.or_else (Bs4.find (Bs4.has_class "salary") soup)
              (Bs4.find (Bs4.class_contains "gehalt") soup).

Definition date_elem (soup : Bs4.Soup) : option Bs4.Node :=
  Bs4.or_else (Bs4.find (Bs4.has_class "posting-date") soup)
              (Bs4.find (Bs4.class_contains "date") soup).

Definition scrape_job_details (url : string) : Eff (option Job) :=
  let full_url := HOST +:+ url in
  response ← requests_get full_url;
  match response with
  | Failure => mret None
  | Page soup =>
      dein_job_value ← follow_anchor "dein job" soup;
      dein_profil_value ← follow_anchor "dein profil" soup;
      mret (Some {| Title := text_or_na (title_elem soup);
                    Company := text_or_na (company_elem soup);
                    Location := text_or_na (location_elem soup);
                    Salary := text_or_na (salary_elem soup);
                    PostedDate := text_or_na (date_elem soup);
                    URL := full_url;
                    DeinJob := dein_job_value;
                    DeinProfil := dein_profil_value |})
  end.

(** *** [scrape_page] (lines 110-135) *)

Definition page_url (start : Z) : string :=
  BASE_URL +:+ "?pagination%5Bstart%5D=" +:+ pretty start.

(** [not any(x in href for x in ["account", "login", "register"])] *)
Definition is_job_link (href : string) : bool :=
  negb (existsb (fun x => PyStr.contains x href)
                ["account"; "login"; "register"]).

Definition scrape_page (start : Z) : Eff (list string) :=
  response ← requests_get (page_url start);
  match response with
  | Failure => mret []
  | Page soup =>
      let job_links :=
        List.filter is_job_link
          (omap Bs4.href (Bs4.select_a_href_contains "/hamburg/" soup)) in
      mret (list_set env job_links)
  end.

(** *** [save_to_csv] (lines 173-190) *)

(** [if batch_num:] is false for [None] and for [0]. *)
Definition csv_filename (batch_num : option Z) (timestamp : string) : string :=
  match batch_num with
  | Some n =>
      if decide (n = 0%Z) then "stellenwerk_jobs_" +:+ timestamp +:+ ".csv"
      else "stellenwerk_jobs_batch" +:+ pretty n +:+ "_" +:+ timestamp +:+ ".csv"
  | None => "stellenwerk_jobs_" +:+ timestamp +:+ ".csv"
  end.

Definition save_to_csv (jobs : list Job) (batch_num : option Z) : Eff unit :=
  timestamp ← now_strftime;
  write_file (csv_filename batch_num timestamp) (Csv.document jobs).

(** *** [scrape_in_batches] (lines 137-171) *)

(** Lines 151-155: the loop over the links of one page.  A returned
    dictionary has eight keys and is therefore truthy, so [if job:] only
    tells a record from [None]. *)
Fixpoint scrape_links (job_links : list string) (batch_jobs : list Job)
  : Eff (list Job) :=
  match job_links with
  | [] => mret batch_jobs
  | link :: rest =>
      job ← scrape_job_details link;
      let batch_jobs :=
        match job with
        | Some j => batch_jobs ++ [j]
        | None => batch_jobs
        end in
      _ ← time_sleep (Jittered DELAY);
      scrape_links rest batch_jobs
  end.

(** Lines 146-158: [for _ in range(n)], returning the cursor and the
    batch as the loop leaves them. *)
Fixpoint scrape_batch (n : nat) (start : Z) (batch_jobs : list Job)
  : Eff (Z * list Job) :=
  match n with
  | O => mret (start, batch_jobs)
  | S n' =>
      job_links ← scrape_page start;
      match job_links with
      | [] => mret (start, batch_jobs)
      | _ :: _ =>
          batch_jobs ← scrape_links job_links batch_jobs;
          let start := (start + 10)%Z in
          _ ← time_sleep (Fixed DELAY);
          scrape_batch n' start batch_jobs
      end
  end.

(** Which of the two exits of the [while] loop was taken: its condition
    turning false, or the [break] of line 169. *)
Inductive Exit : Type := BudgetExhausted | EmptyBatch.

Record Outcome : Type := mkOutcome {
  all_batches : list Job;
  cursor : Z;
  exit : Exit
}.

(** Lines 160-169: what follows the [for] loop; [continue] is the next
    evaluation of the [while] condition. *)
Definition finish_batch (continue : Z -> list Job -> Eff (option Outcome))
    (max_pages : Z) (all : list Job) (r : Z * list Job)
  : Eff (option Outcome) :=
  let start := r.1 in
  let batch_jobs := r.2 in
  match batch_jobs with
  | _ :: _ =>
      let batch_num := (start `div` (Z.of_nat BATCH_SIZE * 10) + 1)%Z in
      _ ← save_to_csv batch_jobs (Some batch_num);
      let all := all ++ batch_jobs in
      _ ← (if decide (start < max_pages * 10)%Z
           then time_sleep (Fixed PAUSE_BETWEEN_BATCHES) else mret tt);
      continue start all
  | [] => mret (Some (mkOutcome all start EmptyBatch))
  end.

(** Lines 144-171: the [while] loop; [fuel] bounds the number of
    batches and [None] means that it ran out. *)
Fixpoint scrape_loop (fuel : nat) (max_pages : Z) (start : Z) (all : list Job)
  : Eff (option Outcome) :=
  if decide (start < max_pages * 10)%Z then
    match fuel with
    | O => mret None
    | S fuel' =>
        r ← scrape_batch BATCH_SIZE start [];
        finish_batch (scrape_loop fuel' max_pages) max_pages all r
    end
  else mret (Some (mkOutcome all start BudgetExhausted)).

(** Every batch that lets the loop continue moves the cursor by at least
    one page, so [max_pages] batches are enough. *)
Definition scrape_in_batches (max_pages : Z) : Eff (option (list Job)) :=
  r ← scrape_loop (Z.to_nat max_pages) max_pages 0 [];
  mret (all_batches <$> r).

End Scraper.

(** ** Specification-side notions *)

(** The hrefs of all anchors of a page, in document order: the list [L]
    an index-page fetch returns. *)
Definition anchor_hrefs (soup : Bs4.Soup) : list string :=
  omap (fun n => if Bs4.has_name "a" n then Bs4.href n else None)
       (Bs4.soup_descendants soup).

(** The snippet taken from a fetched sub-page. *)
Definition snippet_of (soup : Bs4.Soup) : string :=
  PyStr.take 200
    match Bs4.find (fun n => Bs4.has_name "div" n
                             && Bs4.class_contains "description" n) soup with
    | Some e => Bs4.get_text " " e
    | None => Bs4.soup_get_text " " soup
    end.

(** The link followed for a phrase: the href of the first anchor whose
    text contains the phrase, when there is such an anchor and it has
    one. *)
Definition anchor_target (phrase : string) (soup : Bs4.Soup) : option string :=
  match Bs4.find (Bs4.anchor_with_text phrase) soup with
  | Some anchor => Bs4.href anchor
  | None => None
  end.

(** The anchor is absent, or has no href, or the fetch of its target
    fails in world [w]. *)
Definition subfetch_fails (env : Env) (phrase : string) (soup : Bs4.Soup)
    (w : World) : Prop :=
  match anchor_target phrase soup with
  | Some link => server env (trace w) (absolute link) = Failure
  | None => True
  end.

(** The record built at lines 95-104 from a fetched listing. *)
Definition job_of (soup : Bs4.Soup) (full_url dein_job dein_profil : string) : Job :=
  {| Title := text_or_na (title_elem soup);
     Company := text_or_na (company_elem soup);
     Location := text_or_na (location_elem soup);
     Salary := text_or_na (salary_elem soup);
     PostedDate := text_or_na (date_elem soup);
     URL := full_url;
     DeinJob := dein_job;
     DeinProfil := dein_profil |}.

(** Python's [find(p1) or find(p2) or ...]. *)
Definition chain_elem (chain : list (Bs4.Node -> bool)) (soup : Bs4.Soup)
  : option Bs4.Node :=
  foldr (fun p rest => Bs4.or_else (Bs4.find p soup) rest) None chain.

(** [e] is the first tag of the page, in document order, that the
    selector accepts. *)
Definition first_match (p : Bs4.Node -> bool) (soup : Bs4.Soup)
    (e : Bs4.Node) : Prop :=
  exists before after,
    Bs4.soup_descendants soup = before ++ e :: after
    /\ Bs4.is_tag e = true /\ p e = true
    /\ forall x, x ∈ before -> Bs4.is_tag x && p x = false.

Definition no_match (p : Bs4.Node -> bool) (soup : Bs4.Soup) : Prop :=
  forall x, x ∈ Bs4.soup_descendants soup -> Bs4.is_tag x && p x = false.

(** A field value [v] obeys an ordered chain of selectors: it is the text
    of the first match of the first selector that matches anything, and
    the sentinel when none does. *)
Fixpoint follows_chain (chain : list (Bs4.Node -> bool)) (soup : Bs4.Soup)
    (v : string) : Prop :=
  match chain with
  | [] => v = NA
  | p :: rest =>
      (forall e, first_match p soup e -> v = Bs4.get_text "" e)
      /\ (no_match p soup -> follows_chain rest soup v)
  end.

(** The order the specification gives for Title: strict class selectors
    (whichever they are), then the keyword in a class name, then the
    first heading. *)
Definition claimed_title_chain (strict : list string) : list (Bs4.Node -> bool) :=
  (Bs4.has_class <$> strict) ++ [Bs4.class_contains "title"; Bs4.has_name "h1"].

(** Sentinel-completeness as the specification states it: no field is
    the empty string. *)
Definition sentinel_complete (j : Job) : Prop :=
  Forall (fun v => v <> EmptyString) (row_of_job j).

(** A string without carriage return or line feed. *)
Definition one_line (s : string) : Prop :=
  PyStr.count Csv.CR s = 0 /\ PyStr.count Csv.LF s = 0.

(** The persistence scenario as the specification states it: saving
    [jobs] as batch [N] at minute [T] leaves a file of that name holding
    the header row and one row per record, [length jobs + 1] lines in
    all. *)
Definition batch_file_claim (env : Env) (jobs : list Job) (N : Z) (T : string)
    (w : World) : Prop :=
  exists content,
    files (save_to_csv env jobs (Some N) w).2
      !! ("stellenwerk_jobs_batch" +:+ pretty N +:+ "_" +:+ T +:+ ".csv")
    = Some content
    /\ content = Csv.row fieldnames +:+ Csv.writerows (row_of_job <$> jobs)
    /\ Csv.line_count content = S (length jobs).

(** [w'] is [w] after some more effects. *)
Definition extends (w w' : World) : Prop :=
  exists rest, trace w' = trace w ++ rest.

(** The addresses of the index pages requested in a trace. *)
Definition page_requests (t : list Event) : list string :=
  omap (fun e =>
          match e with
          | EGet url =>
              if PyStr.startswith (BASE_URL +:+ "?pagination%5Bstart%5D=") url
              then Some url else None
          | _ => None
          end) t.

(** What holds when the [while] loop is left with outcome [out] in world
    [w_end]: the cursor has reached the budget, or the last batch, begun
    at some cursor [s0] below the budget, ended without a record; that
    batch did not move the cursor exactly when its first scan returned no
    link. *)
Definition stop_condition (env : Env) (max_pages : Z) (out : Outcome)
    (w_end : World) : Prop :=
  match exit out with
  | BudgetExhausted => (max_pages * 10 <= cursor out)%Z
  | EmptyBatch =>
      exists s0 w0,
        (s0 < max_pages * 10)%Z
        /\ scrape_batch env BATCH_SIZE s0 [] w0 = ((cursor out, []), w_end)
        /\ ((scrape_page env s0 w0).1 = [] <-> cursor out = s0)
  end.

(** The rescan as stated: in a batch with [S n] iterations left, cursor
    [c] and records [batch], the [for] loop ends at once with cursor and
    batch unchanged, and what follows the scan of [c] is the write of the
    batch file, the inter-batch pause and a second scan of [c]. *)
Definition rescan_claim (env : Env) (max_pages : Z) (fuel : nat)
    (all : list Job) (n : nat) (c : Z) (batch : list Job) (w : World) : Prop :=
  (scrape_batch env (S n) c batch w).1 = (c, batch)
  /\ exists rest,
       trace ((scrape_batch env (S n) c batch
               ≫= finish_batch env (scrape_loop env (S fuel) max_pages)
                    max_pages all) w).2
       = trace w ++ [EGet (page_url c);
                     EWrite (csv_filename (Some (c `div` 50 + 1)%Z)
                               (clock env (trace w ++ [EGet (page_url c)])));
                     ESleep (Fixed PAUSE_BETWEEN_BATCHES); EGet (page_url c)]
                 ++ rest.

(** ** Concrete sites *)

Module Examples.
Import Bs4.

(** An environment whose [list(set(l))] keeps first occurrences. *)
Definition site (srv : list Event -> string -> Response)
    (clk : list Event -> string) : Env :=
  {| server := srv; clock := clk; list_set := remove_dups;
     list_set_NoDup := NoDup_remove_dups;
     list_set_elem := fun l x => elem_of_remove_dups l x |}.

Definition minute : list Event -> string := fun _ => "2024-01-01_10-30".

Definition w0 : World := {| trace := []; files := ∅ |}.

Definition elem (name : string) (children : list Node) : Node :=
  Tag name (mkAttrs None None) children.
Definition elem_class (name cls : string) (children : list Node) : Node :=
  Tag name (mkAttrs (Some [cls]) None) children.
Definition anchor (target : string) (children : list Node) : Node :=
  Tag "a" (mkAttrs None (Some target)) children.

Definition listing_link : string := "/hamburg/jobs/1".
Definition listing_url : string := "https://www.stellenwerk.de/hamburg/jobs/1".

(** An index page as in the specification's scenario. *)
Definition index_page : Soup :=
  [elem "ul"
     [anchor "/hamburg/jobs/1" [NavigableString "Backend Engineer"];
      anchor "/hamburg/jobs/1" [NavigableString "Details"];
      anchor "/hamburg/account/x" [NavigableString "Konto"]]].

Definition empty_index_page : Soup := [elem "ul" []].

(** A listing with a "dein job" anchor. *)
Definition listing_page : Soup :=
  [elem "h1" [NavigableString "Backend Engineer"];
   anchor "/hamburg/jobs/1/dein-job" [NavigableString " Dein Job "]].

(** A listing whose heading is empty. *)
Definition listing_empty_heading : Soup := [elem "h1" []].

(** A listing with a class containing "title" before its heading. *)
Definition listing_title_class : Soup :=
  [elem_class "div" "job-title" [NavigableString "Lead Developer"];
   elem "h1" [NavigableString "Careers"]].

Definition serve (pages : list (string * Soup)) : list Event -> string -> Response :=
  fun _ url =>
    match list_find (fun p => p.1 = url) pages with
    | Some (_, (_, soup)) => Page soup
    | None => Failure
    end.

(** Only the listing is reachable: every sub-fetch fails. *)
Definition site_subpages_down : Env :=
  site (serve [(listing_url, listing_page)]) minute.

Definition site_empty_heading : Env :=
  site (serve [(listing_url, listing_empty_heading)]) minute.

Definition site_title_class : Env :=
  site (serve [(listing_url, listing_title_class)]) minute.

(** A site whose index page links to its listings by absolute URL. *)
Definition index_page_absolute : Soup :=
  [elem "ul" [anchor listing_url [NavigableString "Backend Engineer"]]].

(** A listing whose heading runs over two lines. *)
Definition two_line_title : string :=
  "Backend" +:+ String Csv.LF "Engineer".

Definition listing_two_line_heading : Soup :=
  [elem "h1" [NavigableString two_line_title]].

Definition site_two_line_heading : Env :=
  site (serve [(listing_url, listing_two_line_heading)]) minute.

Definition job_two_line_title : Job :=
  {| Title := two_line_title; Company := NA; Location := NA; Salary := NA;
     PostedDate := NA; URL := listing_url; DeinJob := NA; DeinProfil := NA |}.

Definition job_plain : Job :=
  {| Title := "Backend Engineer"; Company := NA; Location := NA;
     Salary := NA; PostedDate := NA; URL := listing_url; DeinJob := NA;
     DeinProfil := NA |}.

(** The specification's scenario of section 8. *)
Definition site_scenario : Env :=
  site (serve [(page_url 0, index_page)]) minute.

Definition listing_plain : Soup :=
  [elem "h1" [NavigableString "Backend Engineer"]].

Definition is_index_url (url : string) : bool :=
  PyStr.startswith (BASE_URL +:+ "?pagination%5Bstart%5D=") url.

(** Every index page lists the same posting, which can be fetched. *)
Definition site_endless : Env :=
  site (fun h url => if is_index_url url then Page index_page
                     else serve [(listing_url, listing_plain)] h url) minute.

(** Every index page lists a posting, and no posting can be fetched. *)
Definition site_listings_down : Env :=
  site (fun h url => if is_index_url url then Page index_page else Failure)
       minute.

(** One page of postings, then an empty index page. *)
Definition site_one_page : Env :=
  site (serve [(page_url 0, index_page); (page_url 10, empty_index_page);
               (listing_url, listing_plain)]) minute.

(** The first page iteration of a crawl of [site_one_page]. *)
Definition after_first_page : Z * list Job * World :=
  scrape_batch site_one_page 1 0 [] w0.

Definition site_absolute_links : Env :=
  site (serve [(page_url 0, index_page_absolute);
               (listing_url, listing_page)]) minute.

End Examples.

(** ** Observing effects *)

(** The events performed between a world [w] and a later world [w']. *)
Definition since (w w' : World) : list Event :=
  drop (length (trace w)) (trace w').

Definition is_get (e : Event) : bool :=
  match e with EGet _ => true | _ => false end.

Definition is_write (e : Event) : bool :=
  match e with EWrite _ => true | _ => false end.

(** [time.sleep(DELAY + random.random())], the delay after each link. *)
Definition is_link_delay (e : Event) : bool :=
  match e with ESleep (Jittered d) => bool_decide (d = DELAY) | _ => false end.

(** [time.sleep(DELAY)], the delay after each page. *)
Definition is_page_delay (e : Event) : bool :=
  match e with ESleep (Fixed d) => bool_decide (d = DELAY) | _ => false end.

Definition count_events (p : Event -> bool) (t : list Event) : nat :=
  length (List.filter p t).

(** The text a snippet is cut from (lines 33-38). *)
Definition snippet_source (soup : Bs4.Soup) : string :=
  match Bs4.find (fun n => Bs4.has_name "div" n
                           && Bs4.class_contains "description" n) soup with
  | Some e => Bs4.get_text " " e
  | None => Bs4.soup_get_text " " soup
  end.

(** A link the scanner lets through. *)
Definition listing_link_ok (link : string) : Prop :=
  PyStr.contains "/hamburg/" link = true /\ is_job_link link = true.

(** A record as the crawl produces it: its URL is the host followed by a
    link the scanner let through, and its two snippets are short. *)
Definition record_ok (j : Job) : Prop :=
  (exists link, listing_link_ok link /\ URL j = HOST +:+ link)
  /\ String.length (DeinJob j) <= 200
  /\ String.length (DeinProfil j) <= 200.

(** A file name of the batched form, with a batch number of at least 1. *)
Definition batch_file_name (f : string) : Prop :=
  exists k T, (1 <= k)%Z
              /\ f = "stellenwerk_jobs_batch" +:+ pretty k +:+ "_" +:+ T +:+ ".csv".

Definition write_ok (e : Event) : Prop :=
  match e with
  | EWrite f => batch_file_name f
  | _ => True
  end.

(** A site that answers no request. *)
Definition site_down : Env :=
  Examples.site (fun _ _ => Failure) Examples.minute.

(** A sub-page with a description container. *)
Definition page_with_description : Bs4.Soup :=
  [Examples.elem "p" [Bs4.NavigableString "Impressum"];
   Examples.elem_class "div" "Job-Description"
     [Bs4.NavigableString "  Wir suchen  ";
      Examples.elem "b" [Bs4.NavigableString "dich"]]].

Definition site_description : Env :=
  Examples.site (Examples.serve [("https://www.stellenwerk.de/x", page_with_description)])
    Examples.minute.

(** A listing whose heading is padded with white space. *)
Definition listing_padded_heading : Bs4.Soup :=
  [Examples.elem "h1"
     [Bs4.NavigableString ("  Backend " +:+ String Csv.LF " ");
      Examples.elem "span" [Bs4.NavigableString " Engineer  "]]].

Definition site_padded_heading : Env :=
  Examples.site (Examples.serve [(Examples.listing_url, listing_padded_heading)])
    Examples.minute.

(** A string that does not begin with white space. *)
Definition starts_tight (s : string) : Prop :=
  match s with
  | EmptyString => True
  | String c _ => PyStr.isspace c = false
  end.

(** ** Sub-fetches, stated on the server *)

(** The value [v] of a sub-link field whose anchor is looked up in world
    [w]: the sentinel when the anchor is absent, has no href, or the
    fetch of its target fails; the snippet of the fetched page
    otherwise. *)
Definition snippet_field (env : Env) (phrase : string) (soup : Bs4.Soup)
    (w : World) (v : string) : Prop :=
  match anchor_target phrase soup with
  | Some link =>
      match server env (trace w) (absolute link) with
      | Page page => v = snippet_of page
      | Failure => v = NA
      end
  | None => v = NA
  end.

(** The world once the sub-link of a phrase has been dealt with: one more
    request when there is a link to follow, nothing otherwise. *)
Definition after_subfetch (phrase : string) (soup : Bs4.Soup) (w : World)
  : World :=
  match anchor_target phrase soup with
  | Some link => log (EGet (absolute link)) w
  | None => w
  end.

(** A listing with both anchors, on a site where only the "dein profil"
    page can be fetched. *)
Definition listing_two_anchors : Bs4.Soup :=
  [Examples.elem "h1" [Bs4.NavigableString "Backend Engineer"];
   Examples.anchor "/hamburg/jobs/1/dein-job" [Bs4.NavigableString "Dein Job"];
   Examples.anchor "/hamburg/jobs/1/dein-profil"
     [Bs4.NavigableString "Dein Profil"]].

Definition profil_page : Bs4.Soup :=
  [Examples.elem_class "div" "description"
     [Bs4.NavigableString "Du studierst Informatik"]].

Definition site_job_page_down : Env :=
  Examples.site
    (Examples.serve
       [(Examples.listing_url, listing_two_anchors);
        ("https://www.stellenwerk.de/hamburg/jobs/1/dein-profil", profil_page)])
    Examples.minute.

(** ** Lines of a batch file *)

(** The line feeds inside the fields of the records of a batch. *)
Definition embedded_line_feeds (jobs : list Job) : nat :=
  sum_list ((fun j => sum_list (PyStr.count Csv.LF <$> row_of_job j)) <$> jobs).

(** ** The pages of a batch *)

(** One full page iteration (lines 147-158 when the scan lists a link):
    scan, process the links, advance the cursor, sleep. *)
Definition page_step (env : Env) (s : Z * list Job * World)
  : Z * list Job * World :=
  let scan := scrape_page env s.1.1 s.2 in
  let r := scrape_links env scan.1 s.1.2 scan.2 in
  ((s.1.1 + 10)%Z, r.1, log (ESleep (Fixed DELAY)) r.2).

(** Cursor, batch and world after [i] full page iterations. *)
Definition page_state (env : Env) (s : Z * list Job * World) (i : nat)
  : Z * list Job * World :=
  Nat.iter i (page_step env) s.

(** The scan made in state [s] lists at least one link. *)
Definition lists_links (env : Env) (s : Z * list Job * World) : Prop :=
  (scrape_page env s.1.1 s.2).1 <> [].

(** * Properties *)

(** ** Strings *)

Lemma take_length n s : String.length (PyStr.take n s) <= n.
Proof.
  revert s; induction n as [|n IH]; intros [|c s]; simpl; try lia.
  specialize (IH s); lia.
Qed.

Lemma count_app c a b :
  PyStr.count c (a +:+ b) = PyStr.count c a + PyStr.count c b.
Proof. induction a as [|x a IH]; simpl; [done|]. rewrite IH; lia. Qed.

(** ** Searching a page *)

Lemma find_first_match p soup e :
  Bs4.find p soup = Some e <-> first_match p soup e.
Proof.
  unfold Bs4.find, first_match.
  generalize (Bs4.soup_descendants soup) as l. intros l. split.
  - induction l as [|x l IH]; [done|]. cbn [List.find].
    destruct (Bs4.is_tag x && p x) eqn:Hx.
    + intros [= ->]. apply andb_prop in Hx as [? ?].
      exists [], l. split_and!; try done. intros y Hy. by apply elem_of_nil in Hy.
    + intros (before & after & -> & ? & ? & Hb)%IH.
      exists (x :: before), after. split_and!; try done.
      intros y [->|Hy]%elem_of_cons; auto.
  - intros (before & after & -> & Ht & Hp & Hb).
    induction before as [|x before IH]; cbn [List.find app].
    + by rewrite Ht, Hp.
    + rewrite (Hb x) by left. apply IH. intros y Hy. apply Hb. by right.
Qed.

Lemma find_no_match p soup :
  Bs4.find p soup = None <-> no_match p soup.
Proof.
  unfold Bs4.find, no_match.
  generalize (Bs4.soup_descendants soup) as l. intros l. split.
  - intros Hf x Hx%list_elem_of_In.
    apply (find_none _ _ Hf x Hx).
  - induction l as [|x l IH]; [done|]. intros Hn. cbn [List.find].
    rewrite (Hn x) by left. apply IH. intros y Hy. apply Hn. by right.
Qed.

Lemma find_elem p soup e :
  Bs4.find p soup = Some e ->
  e ∈ Bs4.soup_descendants soup /\ Bs4.is_tag e = true /\ p e = true.
Proof.
  intros (before & after & -> & ? & ? & _)%find_first_match.
  split_and!; try done. set_solver.
Qed.

Lemma first_match_no_match p soup e :
  first_match p soup e -> no_match p soup -> False.
Proof.
  intros (before & after & Hd & Ht & Hp & _) Hn.
  specialize (Hn e). rewrite Hd, Ht, Hp in Hn.
  assert (true && true = false) as H by (apply Hn; set_solver). done.
Qed.

(** A field computed by Python's [or] chain over [find] follows that
    chain of selectors. *)
Lemma or_chain_follows (chain : list (Bs4.Node -> bool)) soup :
  follows_chain chain soup
    (text_or_na (chain_elem chain soup)).
Proof.
  unfold chain_elem.
  induction chain as [|p chain IH]; cbn [follows_chain foldr]; [done|].
  split.
  - intros e He%find_first_match. by rewrite He.
  - intros Hn%find_no_match. by rewrite Hn.
Qed.

(** A chain of selectors leaves one value only. *)
Lemma follows_chain_unique chain soup v v' :
  follows_chain chain soup v -> follows_chain chain soup v' -> v = v'.
Proof.
  induction chain as [|p chain IH]; cbn [follows_chain].
  - by intros -> ->.
  - intros [Hv Hn] [Hv' Hn'].
    destruct (Bs4.find p soup) as [e|] eqn:He.
    + apply find_first_match in He. by rewrite (Hv e He), (Hv' e He).
    + apply find_no_match in He. auto.
Qed.

(** ** Unfolding the effectful functions *)

Lemma scrape_click_value_eq env url w :
  scrape_click_value env url w
  = (match server env (trace w) url with
     | Failure => NA
     | Page soup => snippet_of soup
     end, log (EGet url) w).
Proof.
  unfold scrape_click_value, mbind, eff_bind, requests_get; cbn [fst snd].
  by destruct (server env (trace w) url).
Qed.

Lemma follow_anchor_eq env phrase soup w :
  follow_anchor env phrase soup w
  = match anchor_target phrase soup with
    | Some link => scrape_click_value env (absolute link) w
    | None => (NA, w)
    end.
Proof.
  unfold follow_anchor, anchor_target.
  destruct (Bs4.find _ soup) as [a|]; [|done]. by destruct (Bs4.href a).
Qed.

Lemma scrape_job_details_eq env url w :
  scrape_job_details env url w
  = let w1 := log (EGet (HOST +:+ url)) w in
    match server env (trace w) (HOST +:+ url) with
    | Failure => (None, w1)
    | Page soup =>
        let r1 := follow_anchor env "dein job" soup w1 in
        let r2 := follow_anchor env "dein profil" soup r1.2 in
        (Some (job_of soup (HOST +:+ url) r1.1 r2.1), r2.2)
    end.
Proof.
  unfold scrape_job_details, mbind, eff_bind, requests_get; cbn [fst snd].
  by destruct (server env (trace w) (HOST +:+ url)).
Qed.

Lemma follow_anchor_value env phrase soup w :
  (follow_anchor env phrase soup w).1 = NA
  \/ exists page, (follow_anchor env phrase soup w).1 = snippet_of page.
Proof.
  rewrite follow_anchor_eq. destruct (anchor_target phrase soup) as [link|].
  - rewrite scrape_click_value_eq; cbn [fst].
    destruct (server env (trace w) (absolute link)); eauto.
  - by left.
Qed.

Lemma follow_anchor_fails env phrase soup w :
  subfetch_fails env phrase soup w -> (follow_anchor env phrase soup w).1 = NA.
Proof.
  unfold subfetch_fails. rewrite follow_anchor_eq.
  destruct (anchor_target phrase soup) as [link|]; [|done].
  intros Hf. rewrite scrape_click_value_eq; cbn [fst]. by rewrite Hf.
Qed.

(** ** The follower: [scrape_click_value] *)

(** C7. Whatever the address and whatever the server answers, the value
    returned by [scrape_click_value] (text of the description container,
    text of the whole page, or the sentinel after a failure) is at most
    200 characters long. *)
Theorem scrape_click_value_at_most_200 (env : Env) (url : string) (w : World) :
  String.length (scrape_click_value env url w).1 <= 200.
Proof.
  rewrite scrape_click_value_eq; cbn [fst].
  destruct (server env (trace w) url) as [|soup].
  - unfold NA; simpl; lia.
  - apply take_length.
Qed.

(** ** The extractor: [scrape_job_details] *)

Lemma follow_anchor_spec env phrase soup w :
  snippet_field env phrase soup w (follow_anchor env phrase soup w).1
  /\ (follow_anchor env phrase soup w).2 = after_subfetch phrase soup w.
Proof.
  unfold snippet_field, after_subfetch. rewrite follow_anchor_eq.
  destruct (anchor_target phrase soup) as [link|]; [|done].
  rewrite scrape_click_value_eq. cbn [fst snd].
  by destruct (server env (trace w) (absolute link)).
Qed.

(** C8. When the fetch of the listing succeeds, [scrape_job_details]
    returns a record: its URL and its five structured fields are those of
    the page whatever happens to the sub-fetches; each of the two
    sub-link fields is decided by its own anchor and its own fetch only
    (the sentinel when the anchor is absent, has no href, or the fetch of
    its target fails, the snippet of the fetched page otherwise), so a
    failure on one sub-link changes no other field; and the "dein profil"
    link is followed after the "dein job" one whether or not that one
    failed. *)
Theorem subfetch_failure_not_fatal (env : Env) (url : string) (w : World)
    (soup : Bs4.Soup) :
  server env (trace w) (HOST +:+ url) = Page soup ->
  let w1 := log (EGet (HOST +:+ url)) w in
  let w2 := after_subfetch "dein job" soup w1 in
  exists job,
    (scrape_job_details env url w).1 = Some job
    /\ (scrape_job_details env url w).2 = after_subfetch "dein profil" soup w2
    /\ URL job = HOST +:+ url
    /\ Title job = text_or_na (title_elem soup)
    /\ Company job = text_or_na (company_elem soup)
    /\ Location job = text_or_na (location_elem soup)
    /\ Salary job = text_or_na (salary_elem soup)
    /\ PostedDate job = text_or_na (date_elem soup)
    /\ snippet_field env "dein job" soup w1 (DeinJob job)
    /\ snippet_field env "dein profil" soup w2 (DeinProfil job)
    /\ (subfetch_fails env "dein job" soup w1 -> DeinJob job = NA)
    /\ (subfetch_fails env "dein profil" soup w2 -> DeinProfil job = NA).
Proof.
  intros Hs w1 w2. rewrite scrape_job_details_eq, Hs. cbn zeta. fold w1.
  destruct (follow_anchor_spec env "dein job" soup w1) as [Hv1 Hw1].
  rewrite Hw1. fold w2.
  destruct (follow_anchor_spec env "dein profil" soup w2) as [Hv2 Hw2].
  eexists; split; [reflexivity|]. cbn [fst snd job_of URL Title Company Location
    Salary PostedDate DeinJob DeinProfil].
  split_and!; try done; apply follow_anchor_fails.
Qed.

Lemma subfetch_failure_not_fatal_witness :
  exists job,
    (scrape_job_details site_job_page_down Examples.listing_link
       Examples.w0).1 = Some job
    /\ Title job = "Backend Engineer"
    /\ DeinJob job = NA
    /\ DeinProfil job = "Du studierst Informatik".
Proof.
  destruct (subfetch_failure_not_fatal site_job_page_down
              Examples.listing_link Examples.w0 listing_two_anchors)
    as (job & Hjob & _ & _ & Ht & _ & _ & _ & _ & _ & Hp & Hj & _);
    [reflexivity|].
  exists job. split; [exact Hjob|]. split; [exact Ht|].
  split; [apply Hj; reflexivity|exact Hp].
Defined.

Lemma or_else_None_r a : Bs4.or_else a None = a.
Proof. by destruct a. Qed.

Lemma chain_elem_found chain soup e :
  chain_elem chain soup = Some e ->
  e ∈ Bs4.soup_descendants soup /\ Bs4.is_tag e = true.
Proof.
  unfold chain_elem. induction chain as [|p chain IH]; cbn [foldr]; [done|].
  destruct (Bs4.find p soup) as [x|] eqn:Hx; cbn [Bs4.or_else]; [|exact IH].
  intros [= ->]. apply find_elem in Hx. tauto.
Qed.

Lemma title_elem_chain soup :
  title_elem soup
  = chain_elem [Bs4.has_name "h1"; Bs4.class_contains "title"] soup.
Proof. unfold title_elem, chain_elem; cbn [foldr]. by rewrite or_else_None_r. Qed.

Lemma company_elem_chain soup :
  company_elem soup
  = chain_elem [Bs4.has_class "company-name"; Bs4.class_contains "employer";
                Bs4.has_name "h2"] soup.
Proof. unfold company_elem, chain_elem; cbn [foldr]. by rewrite or_else_None_r. Qed.

Lemma location_elem_chain soup :
  location_elem soup
  = chain_elem [Bs4.has_class "job-location"; Bs4.class_contains "location"] soup.
Proof. unfold location_elem, chain_elem; cbn [foldr]. by rewrite or_else_None_r. Qed.

Lemma salary_elem_chain soup :
  salary_elem soup
  = chain_elem [Bs4.has_class "salary"; Bs4.class_contains "gehalt"] soup.
Proof. unfold salary_elem, chain_elem; cbn [foldr]. by rewrite or_else_None_r. Qed.

Lemma date_elem_chain soup :
  date_elem soup
  = chain_elem [Bs4.has_class "posting-date"; Bs4.class_contains "date"] soup.
Proof. unfold date_elem, chain_elem; cbn [foldr]. by rewrite or_else_None_r. Qed.

Lemma text_or_na_cases chain soup :
  text_or_na (chain_elem chain soup) = NA
  \/ exists e, e ∈ Bs4.soup_descendants soup /\ Bs4.is_tag e = true
               /\ text_or_na (chain_elem chain soup) = Bs4.get_text "" e.
Proof.
  destruct (chain_elem chain soup) as [e|] eqn:He; [|by left].
  right. exists e. apply chain_elem_found in He. tauto.
Qed.

Lemma scrape_job_details_some env url w job :
  (scrape_job_details env url w).1 = Some job ->
  exists soup,
    server env (trace w) (HOST +:+ url) = Page soup
    /\ job = job_of soup (HOST +:+ url)
               (follow_anchor env "dein job" soup (log (EGet (HOST +:+ url)) w)).1
               (follow_anchor env "dein profil" soup
                  (follow_anchor env "dein job" soup
                     (log (EGet (HOST +:+ url)) w)).2).1.
Proof.
  rewrite scrape_job_details_eq. cbn zeta.
  destruct (server env (trace w) (HOST +:+ url)) as [|soup]; [done|].
  cbn [fst]. intros [= <-]. by exists soup.
Qed.

(** C4 (as the code has it). For a listing whose fetch succeeded, Title
    is the text of the first [h1] when there is one, otherwise of the
    first tag with a class containing "title", otherwise the sentinel;
    Company goes through class [company-name], then a class containing
    "employer", then the first [h2], then the sentinel; Location, Salary
    and Posted Date go through their strict class, then their keyword in
    a class name, then the sentinel, with no structural fallback.  Each
    step takes the first matching tag in document order. *)
Theorem field_fallback_chains (env : Env) (url : string) (w : World)
    (soup : Bs4.Soup) :
  server env (trace w) (HOST +:+ url) = Page soup ->
  exists job,
    (scrape_job_details env url w).1 = Some job
    /\ follows_chain [Bs4.has_name "h1"; Bs4.class_contains "title"]
         soup (Title job)
    /\ follows_chain [Bs4.has_class "company-name";
                      Bs4.class_contains "employer"; Bs4.has_name "h2"]
         soup (Company job)
    /\ follows_chain [Bs4.has_class "job-location";
                      Bs4.class_contains "location"] soup (Location job)
    /\ follows_chain [Bs4.has_class "salary"; Bs4.class_contains "gehalt"]
         soup (Salary job)
    /\ follows_chain [Bs4.has_class "posting-date"; Bs4.class_contains "date"]
         soup (PostedDate job).
Proof.
  intros Hs. rewrite scrape_job_details_eq, Hs. cbn zeta.
  eexists; split; [reflexivity|].
  cbn [job_of Title Company Location Salary PostedDate].
  rewrite title_elem_chain, company_elem_chain, location_elem_chain,
    salary_elem_chain, date_elem_chain.
  split_and!; apply or_chain_follows.
Qed.

Lemma field_fallback_chains_witness :
  exists job,
    (scrape_job_details Examples.site_title_class Examples.listing_link
       Examples.w0).1 = Some job
    /\ follows_chain [Bs4.has_name "h1"; Bs4.class_contains "title"]
         Examples.listing_title_class (Title job).
Proof.
  destruct (field_fallback_chains Examples.site_title_class
              Examples.listing_link Examples.w0 Examples.listing_title_class)
    as (job & Hjob & Ht & _); [reflexivity|].
  exists job. split; [exact Hjob|exact Ht].
Defined.

(** C4, refuted as stated. A listing with a [job-title] class and an [h1]
    gets the heading as Title, so whatever strict class selectors are put
    first, Title does not follow the order "strict, keyword in class
    name, first heading, sentinel". *)
Lemma claimed_title_chain_counterexample :
  ~ exists strict : list string,
      forall (env : Env) (url : string) (w : World) (soup : Bs4.Soup) (job : Job),
        server env (trace w) (HOST +:+ url) = Page soup ->
        (scrape_job_details env url w).1 = Some job ->
        follows_chain (claimed_title_chain strict) soup (Title job).
Proof.
  intros [strict H].
  specialize (H Examples.site_title_class Examples.listing_link Examples.w0
                Examples.listing_title_class _ eq_refl eq_refl).
  change (Title _) with "Careers" in H.
  unfold claimed_title_chain in H.
  assert (Hdiv : forall p e,
             first_match p Examples.listing_title_class e ->
             p (Examples.elem "h1" [Bs4.NavigableString "Careers"]) = false ->
             Bs4.get_text "" e = "Lead Developer").
  { intros p e (Hin & Ht & Hp)%find_first_match%find_elem Hh.
    change (Bs4.soup_descendants Examples.listing_title_class) with
      [Examples.elem_class "div" "job-title" [Bs4.NavigableString "Lead Developer"];
       Bs4.NavigableString "Lead Developer";
       Examples.elem "h1" [Bs4.NavigableString "Careers"];
       Bs4.NavigableString "Careers"] in Hin.
    repeat (apply elem_of_cons in Hin as [->|Hin]); try done.
    - congruence.
    - by apply elem_of_nil in Hin. }
  induction strict as [|s strict IH]; cbn [fmap list_fmap app follows_chain] in H.
  - destruct H as [H _].
    specialize (H (Examples.elem_class "div" "job-title"
                     [Bs4.NavigableString "Lead Developer"])).
    discriminate H. by apply find_first_match.
  - destruct H as [Hfirst Hnone].
    destruct (Bs4.find (Bs4.has_class s) Examples.listing_title_class)
      as [e|] eqn:He.
    + apply find_first_match in He. specialize (Hfirst e He).
      rewrite (Hdiv _ e He) in Hfirst; [discriminate|done].
    + apply IH, Hnone. by apply find_no_match.
Qed.

Lemma stripped_strings_nonempty nodes :
  Forall (fun v => v <> EmptyString) (Bs4.stripped_strings nodes).
Proof.
  unfold Bs4.stripped_strings. induction nodes as [|n nodes IH]; [constructor|].
  cbn [omap list_omap]. destruct n as [t|? ? ?]; [|done].
  cbn zeta. destruct (PyStr.nonempty (PyStr.strip t)) eqn:Ht; [|done].
  constructor; [|done]. by destruct (PyStr.strip t).
Qed.

Lemma join_nonempty sep x l :
  x <> EmptyString -> PyStr.join sep (x :: l) <> EmptyString.
Proof. intros Hx. destruct l; cbn [PyStr.join]; by destruct x. Qed.

(** A tag has empty text exactly when it has no visible text node. *)
Lemma get_text_empty e :
  Bs4.get_text "" e = EmptyString
  <-> Bs4.stripped_strings (Bs4.descendants e) = [].
Proof.
  unfold Bs4.get_text. split; [|by intros ->].
  pose proof (stripped_strings_nonempty (Bs4.descendants e)) as H.
  destruct (Bs4.stripped_strings (Bs4.descendants e)) as [|x l]; [done|].
  apply Forall_cons in H as [Hx _]. intros Hj.
  by apply (join_nonempty "" x l) in Hj.
Qed.

(** C5 (as the code has it). Every record returned by
    [scrape_job_details] has as URL the host followed by the link, which
    is never empty.  Each of Title, Company, Location, Salary and Posted
    Date follows its chain of selectors on the fetched page: it is the
    sentinel when no selector of the chain matches, and otherwise the
    stripped text of the first tag matched by the first selector that
    matches, which is the empty string exactly when that tag has no
    visible text.  Dein Job and Dein Profil are each the sentinel when
    the anchor is absent, has no href, or the fetch of its target fails,
    and otherwise the snippet of the fetched sub-page. *)
Theorem job_fields_text_or_sentinel (env : Env) (url : string) (w : World)
    (job : Job) :
  (scrape_job_details env url w).1 = Some job ->
  URL job = HOST +:+ url
  /\ URL job <> EmptyString
  /\ exists soup,
       server env (trace w) (HOST +:+ url) = Page soup
       /\ follows_chain [Bs4.has_name "h1"; Bs4.class_contains "title"]
            soup (Title job)
       /\ follows_chain [Bs4.has_class "company-name";
                         Bs4.class_contains "employer"; Bs4.has_name "h2"]
            soup (Company job)
       /\ follows_chain [Bs4.has_class "job-location";
                         Bs4.class_contains "location"] soup (Location job)
       /\ follows_chain [Bs4.has_class "salary"; Bs4.class_contains "gehalt"]
            soup (Salary job)
       /\ follows_chain [Bs4.has_class "posting-date";
                         Bs4.class_contains "date"] soup (PostedDate job)
       /\ (forall e, Bs4.get_text "" e = EmptyString
                     <-> Bs4.stripped_strings (Bs4.descendants e) = [])
       /\ snippet_field env "dein job" soup (log (EGet (HOST +:+ url)) w)
            (DeinJob job)
       /\ snippet_field env "dein profil" soup
            (after_subfetch "dein job" soup (log (EGet (HOST +:+ url)) w))
            (DeinProfil job)
       /\ Forall (fun v => v = NA \/
                           exists e, e ∈ Bs4.soup_descendants soup
                                     /\ Bs4.is_tag e = true
                                     /\ v = Bs4.get_text "" e)
            [Title job; Company job; Location job; Salary job; PostedDate job]
       /\ Forall (fun v => v = NA \/ exists page, v = snippet_of page)
            [DeinJob job; DeinProfil job].
Proof.
  intros (soup & Hs & ->)%scrape_job_details_some.
  split; [done|]. split; [done|].
  exists soup. split; [done|].
  cbn [job_of Title Company Location Salary PostedDate DeinJob DeinProfil].
  rewrite title_elem_chain, company_elem_chain, location_elem_chain,
    salary_elem_chain, date_elem_chain.
  destruct (follow_anchor_spec env "dein job" soup
              (log (EGet (HOST +:+ url)) w)) as [Hv1 Hw1].
  pose proof (follow_anchor_spec env "dein profil" soup
                (follow_anchor env "dein job" soup
                   (log (EGet (HOST +:+ url)) w)).2) as [Hv2 _].
  rewrite Hw1 in Hv2.
  split_and!; try apply or_chain_follows; try done.
  - apply get_text_empty.
  - rewrite Hw1. exact Hv2.
  - repeat (apply Forall_cons; split; [apply text_or_na_cases|]). apply Forall_nil_2.
  - repeat (apply Forall_cons; split; [apply follow_anchor_value|]). apply Forall_nil_2.
Qed.

Lemma job_fields_text_or_sentinel_witness :
  let job := job_of Examples.listing_empty_heading
               (HOST +:+ Examples.listing_link) NA NA in
  URL job = "https://www.stellenwerk.de/hamburg/jobs/1"
  /\ follows_chain [Bs4.has_name "h1"; Bs4.class_contains "title"]
       Examples.listing_empty_heading (Title job)
  /\ Title job = EmptyString
  /\ Company job = NA
  /\ DeinJob job = NA.
Proof.
  cbn zeta.
  destruct (job_fields_text_or_sentinel Examples.site_empty_heading
              Examples.listing_link Examples.w0 _ eq_refl)
    as (Hu & _ & soup & Hs & Ht & _).
  injection Hs as <-.
  split; [exact Hu|]. split; [exact Ht|]. by split_and!.
Defined.

(** C5, refuted as stated. A listing whose [h1] holds no text yields a
    record whose Title is the empty string. *)
Lemma sentinel_completeness_counterexample :
  exists job,
    (scrape_job_details Examples.site_empty_heading Examples.listing_link
       Examples.w0).1 = Some job
    /\ Title job = EmptyString
    /\ ~ sentinel_complete job.
Proof.
  eexists. split; [reflexivity|]. split; [reflexivity|].
  intros H. apply Forall_cons in H as [H _]. by apply H.
Qed.

(** C3. [scrape_job_details] prefixes the host to every link: the page it
    requests, and the URL of any record it returns, is the host followed
    by the link, also for a link that is already absolute.  On a site
    whose index page lists [https://www.stellenwerk.de/hamburg/jobs/1],
    the scanner hands over that link, the sub-link rule of lines 80-81
    would leave it unchanged, and the extractor requests the doubled
    address and loses the listing. *)
Theorem absolute_link_prefixed_again :
  (forall (env : Env) (url : string) (w : World),
      (exists rest, trace (scrape_job_details env url w).2
                    = trace w ++ EGet (HOST +:+ url) :: rest)
      /\ ((scrape_job_details env url w).1 = None
          \/ URL <$> (scrape_job_details env url w).1 = Some (HOST +:+ url)))
  /\ (scrape_page Examples.site_absolute_links 0 Examples.w0).1
     = [Examples.listing_url]
  /\ absolute Examples.listing_url = Examples.listing_url
  /\ scrape_job_details Examples.site_absolute_links Examples.listing_url
       Examples.w0
     = (None,
        {| trace := [EGet "https://www.stellenwerk.dehttps://www.stellenwerk.de/hamburg/jobs/1"];
           files := ∅ |}).
Proof.
  split; [|by split_and!].
  intros env url w. rewrite scrape_job_details_eq. cbn zeta.
  destruct (server env (trace w) (HOST +:+ url)) as [|soup].
  - split; [by exists []|by left].
  - split; [|by right]. cbn [snd].
    rewrite !follow_anchor_eq.
    destruct (anchor_target "dein job" soup);
      destruct (anchor_target "dein profil" soup);
      rewrite ?scrape_click_value_eq; cbn [snd log trace];
      rewrite <- ?app_assoc; eexists; reflexivity.
Qed.

(** ** The scanner: [scrape_page] *)

Lemma select_hrefs needle (nodes : list Bs4.Node) :
  omap Bs4.href
    (List.filter (fun n => Bs4.has_name "a" n &&
                           match Bs4.href n with
                           | Some h => PyStr.contains needle h
                           | None => false
                           end) nodes)
  = List.filter (PyStr.contains needle)
      (omap (fun n => if Bs4.has_name "a" n then Bs4.href n else None) nodes).
Proof.
  induction nodes as [|n nodes IH]; [done|].
  cbn [List.filter omap list_omap].
  destruct (Bs4.has_name "a" n); cbn [andb]; [|exact IH].
  destruct (Bs4.href n) as [h|] eqn:Hh; [|exact IH].
  cbn [List.filter]. destruct (PyStr.contains needle h); [|exact IH].
  cbn [omap list_omap]. by rewrite Hh, <- IH.
Qed.

Lemma scrape_page_links env start w soup :
  server env (trace w) (page_url start) = Page soup ->
  (scrape_page env start w).1
  = list_set env (List.filter is_job_link
                    (List.filter (PyStr.contains "/hamburg/") (anchor_hrefs soup))).
Proof.
  intros Hs. unfold scrape_page, mbind, eff_bind, requests_get; simpl.
  rewrite Hs; simpl. unfold Bs4.select_a_href_contains, anchor_hrefs.
  by rewrite select_hrefs.
Qed.

Lemma scrape_page_failure env start w :
  server env (trace w) (page_url start) = Failure ->
  (scrape_page env start w).1 = [].
Proof.
  intros Hs. unfold scrape_page, mbind, eff_bind, requests_get; simpl.
  by rewrite Hs.
Qed.

Lemma is_job_link_spec h :
  is_job_link h = true <->
  PyStr.contains "account" h = false /\ PyStr.contains "login" h = false
  /\ PyStr.contains "register" h = false.
Proof.
  unfold is_job_link; simpl.
  destruct (PyStr.contains "account" h), (PyStr.contains "login" h),
    (PyStr.contains "register" h); simpl; naive_solver.
Qed.

Lemma NoDup_singleton_elems {A} (a : A) (l : list A) :
  NoDup l -> (forall x, x ∈ l <-> x = a) -> l = [a].
Proof.
  intros Hnd Hel. destruct l as [|x l].
  - assert (a ∈ @nil A) as H by (by apply Hel). by apply elem_of_nil in H.
  - assert (x = a) as -> by (apply Hel; left).
    destruct l as [|y l]; [done|].
    assert (y = a) as -> by (apply Hel; right; left).
    apply NoDup_cons in Hnd as [Hn _]. exfalso; apply Hn; left.
Qed.

(** C6. When the index-page fetch succeeds and the anchors of the page
    carry the hrefs [L] (duplicates allowed), [scrape_page] returns a list
    without repetition whose elements are exactly the members of [L]
    that contain the listing-path marker and none of the account, login
    or registration markers; for
    [L = ["/hamburg/jobs/1"; "/hamburg/jobs/1"; "/hamburg/account/x"]]
    the result is exactly [["/hamburg/jobs/1"]]. *)
Theorem scrape_page_dedup_filter (env : Env) (start : Z) (w : World)
    (soup : Bs4.Soup) :
  server env (trace w) (page_url start) = Page soup ->
  let L := anchor_hrefs soup in
  let out := (scrape_page env start w).1 in
  NoDup out
  /\ (forall h, h ∈ out <->
        h ∈ L /\ PyStr.contains "/hamburg/" h = true
        /\ PyStr.contains "account" h = false
        /\ PyStr.contains "login" h = false
        /\ PyStr.contains "register" h = false)
  /\ (L = ["/hamburg/jobs/1"; "/hamburg/jobs/1"; "/hamburg/account/x"] ->
      out = ["/hamburg/jobs/1"]).
Proof.
  intros Hs L out. subst out. rewrite (scrape_page_links _ _ _ _ Hs). fold L.
  split; [apply list_set_NoDup|]. split.
  - intros h. rewrite list_set_elem, !list_elem_of_In, !filter_In.
    rewrite is_job_link_spec. naive_solver.
  - intros ->. simpl.
    apply NoDup_singleton_elems; [apply list_set_NoDup|].
    intros x. rewrite list_set_elem. set_solver.
Qed.

Lemma scrape_page_dedup_filter_witness :
  (scrape_page Examples.site_scenario 0 Examples.w0).1 = ["/hamburg/jobs/1"].
Proof.
  apply (scrape_page_dedup_filter Examples.site_scenario 0 Examples.w0
           Examples.index_page); reflexivity.
Defined.

(** ** The sink: [save_to_csv] *)

Lemma count_escape c s :
  c <> Csv.quotechar -> PyStr.count c (Csv.escape s) = PyStr.count c s.
Proof.
  intros Hc. induction s as [|a s IH]; [done|]. cbn [Csv.escape].
  destruct (decide (a = Csv.quotechar)) as [->|]; cbn [PyStr.count].
  - rewrite IH. destruct (decide (Csv.quotechar = c)); [congruence|lia].
  - by rewrite IH.
Qed.

Lemma count_field c s :
  c <> Csv.quotechar -> PyStr.count c (Csv.field s) = PyStr.count c s.
Proof.
  intros Hc. unfold Csv.field, Csv.quoted. destruct (Csv.has_special s); [|done].
  cbn [PyStr.count]. rewrite count_app, count_escape by done. cbn [PyStr.count].
  destruct (decide (Csv.quotechar = c)); [congruence|lia].
Qed.

Lemma count_join_fields c fields :
  c <> Csv.quotechar -> c <> Csv.delimiter ->
  Forall (fun v => PyStr.count c v = 0) fields ->
  PyStr.count c (PyStr.join (String Csv.delimiter EmptyString)
                            (Csv.field <$> fields)) = 0.
Proof.
  intros Hq Hd. induction 1 as [|v fields Hv _ IH]; [done|].
  cbn [fmap list_fmap PyStr.join].
  destruct (Csv.field <$> fields) as [|f fs] eqn:Hf.
  - by rewrite count_field.
  - rewrite !count_app, count_field, Hv, IH by done. cbn [PyStr.count].
    destruct (decide (Csv.delimiter = c)); [congruence|lia].
Qed.

Lemma line_count_row fields :
  Forall (fun v => PyStr.count Csv.LF v = 0) fields ->
  PyStr.count Csv.LF (Csv.row fields) = 1.
Proof.
  intros H. unfold Csv.row. rewrite count_app.
  destruct (decide (fields = [EmptyString])); [done|].
  by rewrite count_join_fields.
Qed.

Lemma line_count_writerows rows :
  Forall (Forall (fun v => PyStr.count Csv.LF v = 0)) rows ->
  PyStr.count Csv.LF (Csv.writerows rows) = length rows.
Proof.
  induction 1 as [|r rows Hr _ IH]; [done|].
  cbn [Csv.writerows length]. by rewrite count_app, line_count_row, IH.
Qed.

Lemma save_to_csv_eq env jobs batch_num w :
  save_to_csv env jobs batch_num w
  = (tt, {| trace := trace w ++ [EWrite (csv_filename batch_num (clock env (trace w)))];
            files := <[csv_filename batch_num (clock env (trace w))
                       := Csv.document jobs]> (files w) |}).
Proof. reflexivity. Qed.

Lemma count_join_sum c fields :
  c <> Csv.quotechar -> c <> Csv.delimiter ->
  PyStr.count c (PyStr.join (String Csv.delimiter EmptyString)
                            (Csv.field <$> fields))
  = sum_list (PyStr.count c <$> fields).
Proof.
  intros Hq Hd. induction fields as [|v fields IH]; [done|].
  cbn [fmap list_fmap PyStr.join sum_list sum_list_with] in *.
  destruct (Csv.field <$> fields) as [|f fs] eqn:Hf.
  - destruct fields; [|done]. cbn. rewrite count_field by done. lia.
  - rewrite !count_app, count_field, IH by done. cbn [PyStr.count].
    destruct (decide (Csv.delimiter = c)); [congruence|unfold id; lia].
Qed.

Lemma line_count_row_exact fields :
  PyStr.count Csv.LF (Csv.row fields)
  = S (sum_list (PyStr.count Csv.LF <$> fields)).
Proof.
  unfold Csv.row. rewrite count_app.
  destruct (decide (fields = [EmptyString])) as [->|].
  - done.
  - rewrite count_join_sum by done.
    change (PyStr.count Csv.LF Csv.lineterminator) with 1. lia.
Qed.

Lemma line_count_writerows_exact rows :
  PyStr.count Csv.LF (Csv.writerows rows)
  = length rows
    + sum_list ((fun r => sum_list (PyStr.count Csv.LF <$> r)) <$> rows).
Proof.
  induction rows as [|r rows IH]; [done|].
  cbn [Csv.writerows length fmap list_fmap sum_list sum_list_with] in *.
  rewrite count_app, line_count_row_exact, IH. unfold id. lia.
Qed.

(** C9 (as the code has it). Saving [n] records with a batch number [N]
    other than 0 at minute [T] creates or replaces the file
    [stellenwerk_jobs_batchN_T.csv] and touches no other file; whatever
    the fields hold, the file consists of the header row followed by one
    row per record in batch order; it has [n + 1] lines plus one for
    every line feed inside a field, hence exactly [n + 1] lines when no
    field contains a line break. *)
Theorem save_to_csv_batch_file (env : Env) (jobs : list Job) (N : Z)
    (T : string) (w : World) :
  N <> 0%Z ->
  clock env (trace w) = T ->
  let w' := (save_to_csv env jobs (Some N) w).2 in
  let name := "stellenwerk_jobs_batch" +:+ pretty N +:+ "_" +:+ T +:+ ".csv" in
  let content := Csv.row fieldnames +:+ Csv.writerows (row_of_job <$> jobs) in
  files w' !! name = Some content
  /\ (forall f, f <> name -> files w' !! f = files w !! f)
  /\ Csv.line_count content = S (length jobs) + embedded_line_feeds jobs
  /\ (Forall (fun j => Forall one_line (row_of_job j)) jobs ->
      batch_file_claim env jobs N T w).
Proof.
  intros HN HT. cbn zeta. unfold batch_file_claim.
  rewrite save_to_csv_eq, HT. cbn [snd files csv_filename].
  destruct (decide (N = 0%Z)); [done|].
  split_and!.
  - apply lookup_insert_eq.
  - intros f Hf. by apply lookup_insert_ne.
  - unfold Csv.line_count, embedded_line_feeds.
    rewrite count_app, line_count_writerows_exact, length_fmap.
    rewrite <- list_fmap_compose. done.
  - intros Hjobs. eexists. split; [apply lookup_insert_eq|]. split; [done|].
    unfold Csv.document, Csv.line_count. rewrite count_app, line_count_writerows.
    + rewrite length_fmap. done.
    + apply Forall_fmap. eapply Forall_impl; [exact Hjobs|].
      intros j Hj. eapply Forall_impl; [exact Hj|]. by intros v [_ ?].
Qed.

Lemma save_to_csv_batch_file_witness :
  batch_file_claim Examples.site_scenario
    [Examples.job_plain; Examples.job_plain; Examples.job_plain] 2
    "2024-01-01_10-30" Examples.w0.
Proof.
  apply (save_to_csv_batch_file Examples.site_scenario
           [Examples.job_plain; Examples.job_plain; Examples.job_plain] 2
           "2024-01-01_10-30" Examples.w0); [done|reflexivity|].
  repeat (apply Forall_cons; split;
          [repeat (apply Forall_cons; split; [by split|]); apply Forall_nil_2|]).
  apply Forall_nil_2.
Defined.

(** C9, refuted as stated. The record extracted from a listing whose
    heading runs over two lines is written as a quoted field that spans
    two lines, so the file of that one record has three lines; and a
    batch number of 0 counts as no batch number, so no [batch0] file is
    written. *)
Lemma batch_file_counterexample :
  (scrape_job_details Examples.site_two_line_heading Examples.listing_link
     Examples.w0).1 = Some Examples.job_two_line_title
  /\ clock Examples.site_scenario (trace Examples.w0) = "2024-01-01_10-30"
  /\ Csv.line_count (Csv.document [Examples.job_two_line_title]) = 3
  /\ ~ batch_file_claim Examples.site_scenario [Examples.job_two_line_title] 2
         "2024-01-01_10-30" Examples.w0
  /\ ~ batch_file_claim Examples.site_scenario [Examples.job_plain] 0
         "2024-01-01_10-30" Examples.w0.
Proof.
  split; [reflexivity|]. split; [reflexivity|]. split; [reflexivity|]. split.
  - intros (content & _ & -> & Hn). vm_compute in Hn. discriminate.
  - intros (content & Hf & _). vm_compute in Hf. discriminate.
Qed.

(** ** The crawler: [scrape_in_batches] *)

Lemma extends_refl w : extends w w.
Proof. exists []. by rewrite app_nil_r. Qed.

Lemma extends_trans w1 w2 w3 : extends w1 w2 -> extends w2 w3 -> extends w1 w3.
Proof. intros [r1 H1] [r2 H2]. exists (r1 ++ r2). by rewrite H2, H1, app_assoc. Qed.

Lemma log_extends e w : extends w (log e w).
Proof. by exists [e]. Qed.

Lemma scrape_click_value_extends env url w :
  extends w (scrape_click_value env url w).2.
Proof. rewrite scrape_click_value_eq. apply log_extends. Qed.

Lemma follow_anchor_extends env phrase soup w :
  extends w (follow_anchor env phrase soup w).2.
Proof.
  rewrite follow_anchor_eq. destruct (anchor_target phrase soup).
  - apply scrape_click_value_extends.
  - apply extends_refl.
Qed.

Lemma scrape_job_details_extends env url w :
  extends w (scrape_job_details env url w).2.
Proof.
  rewrite scrape_job_details_eq. cbn zeta.
  destruct (server env (trace w) (HOST +:+ url)); cbn [snd].
  - apply log_extends.
  - eapply extends_trans; [apply log_extends|].
    eapply extends_trans; apply follow_anchor_extends.
Qed.

Lemma scrape_page_eq env start w :
  scrape_page env start w
  = (match server env (trace w) (page_url start) with
     | Failure => []
     | Page soup =>
         list_set env
           (List.filter is_job_link
              (omap Bs4.href (Bs4.select_a_href_contains "/hamburg/" soup)))
     end, log (EGet (page_url start)) w).
Proof.
  unfold scrape_page, mbind, eff_bind, requests_get; cbn [fst snd].
  by destruct (server env (trace w) (page_url start)).
Qed.

Lemma scrape_links_cons env link rest batch w :
  scrape_links env (link :: rest) batch w
  = let r := scrape_job_details env link w in
    scrape_links env rest
      (match r.1 with Some j => batch ++ [j] | None => batch end)
      (log (ESleep (Jittered DELAY)) r.2).
Proof. reflexivity. Qed.

Lemma scrape_links_extends env links batch w :
  extends w (scrape_links env links batch w).2.
Proof.
  revert batch w. induction links as [|link rest IH]; intros batch w.
  - apply extends_refl.
  - rewrite scrape_links_cons. cbn zeta.
    eapply extends_trans; [apply scrape_job_details_extends|].
    eapply extends_trans; [apply log_extends|apply IH].
Qed.

Lemma scrape_batch_break env n start batch w :
  (scrape_page env start w).1 = [] ->
  scrape_batch env (S n) start batch w
  = ((start, batch), log (EGet (page_url start)) w).
Proof.
  intros H. cbn [scrape_batch]. unfold mbind, eff_bind at 1. rewrite H.
  by rewrite scrape_page_eq.
Qed.

Lemma scrape_batch_step env n start batch w :
  (scrape_page env start w).1 <> [] ->
  scrape_batch env (S n) start batch w
  = let r := scrape_links env (scrape_page env start w).1 batch
               (log (EGet (page_url start)) w) in
    scrape_batch env n (start + 10) r.1 (log (ESleep (Fixed DELAY)) r.2).
Proof.
  intros H. cbn [scrape_batch]. unfold mbind, eff_bind at 1.
  destruct (scrape_page env start w).1 as [|l ls] eqn:Hl; [done|].
  rewrite scrape_page_eq at 1. cbn [snd]. reflexivity.
Qed.

Lemma scrape_batch_extends env n start batch w :
  extends w (scrape_batch env n start batch w).2.
Proof.
  revert start batch w. induction n as [|n IH]; intros start batch w.
  - apply extends_refl.
  - destruct (decide ((scrape_page env start w).1 = [])) as [He|Hne].
    + rewrite scrape_batch_break by done. apply log_extends.
    + rewrite scrape_batch_step by done. cbn zeta.
      eapply extends_trans; [apply log_extends|].
      eapply extends_trans; [apply scrape_links_extends|].
      eapply extends_trans; [apply log_extends|apply IH].
Qed.

Lemma scrape_links_grows env links batch w :
  exists new, (scrape_links env links batch w).1 = batch ++ new.
Proof.
  revert batch w. induction links as [|link rest IH]; intros batch w.
  - exists []. by rewrite app_nil_r.
  - rewrite scrape_links_cons. cbn zeta.
    destruct (scrape_job_details env link w).1 as [j|].
    + destruct (IH (batch ++ [j]) (log (ESleep (Jittered DELAY))
                                     (scrape_job_details env link w).2))
        as [new ->].
      exists (j :: new). by rewrite <- app_assoc.
    + apply IH.
Qed.

(** Where a batch leaves the cursor: it never moves back, moves by whole
    pages and by at most [n] of them; it stays put exactly when the first
    scan returned no link, and then the batch is as it was. *)
Lemma scrape_batch_cursor env n start batch w :
  let r := scrape_batch env n start batch w in
  (exists new, r.1.2 = batch ++ new)
  /\ (r.1.1 = start \/ start + 10 <= r.1.1)%Z
  /\ (r.1.1 <= start + 10 * Z.of_nat n)%Z
  /\ (r.1.1 = start -> r.1.2 = batch)
  /\ (n <> 0 -> ((scrape_page env start w).1 = [] <-> r.1.1 = start)).
Proof.
  revert start batch w. induction n as [|n IH]; intros start batch w; cbn zeta.
  - cbn. split_and!; try done; try lia. exists []. by rewrite app_nil_r.
  - destruct (decide ((scrape_page env start w).1 = [])) as [He|Hne].
    + rewrite scrape_batch_break by done. cbn [fst snd].
      split_and!; try done; try lia. exists []. by rewrite app_nil_r.
    + rewrite scrape_batch_step by done. cbn zeta.
      set (r := scrape_links env _ batch _).
      destruct (scrape_links_grows env (scrape_page env start w).1 batch
                  (log (EGet (page_url start)) w)) as [new1 Hnew1].
      fold r in Hnew1.
      destruct (IH (start + 10)%Z r.1 (log (ESleep (Fixed DELAY)) r.2))
        as ([new2 Hnew2] & Hc & Hle & _ & _).
      split_and!.
      * exists (new1 ++ new2). by rewrite Hnew2, Hnew1, app_assoc.
      * lia.
      * lia.
      * intros Heq. lia.
      * intros _. split; [done|]. intros Heq. lia.
Qed.

Lemma finish_batch_empty env k max_pages all c w :
  finish_batch env k max_pages all (c, []) w
  = (Some (mkOutcome all c EmptyBatch), w).
Proof. reflexivity. Qed.

Lemma finish_batch_nonempty env k max_pages all c j b w :
  finish_batch env k max_pages all (c, j :: b) w
  = let w2 := (save_to_csv env (j :: b) (Some (c `div` 50 + 1)%Z) w).2 in
    k c (all ++ j :: b)
      (if decide (c < max_pages * 10)%Z
       then log (ESleep (Fixed PAUSE_BETWEEN_BATCHES)) w2 else w2).
Proof.
  unfold finish_batch. cbn [fst snd]. unfold mbind, eff_bind. cbn zeta.
  by destruct (decide (c < max_pages * 10)%Z).
Qed.

Lemma scrape_loop_done env fuel max_pages start all w :
  ~ (start < max_pages * 10)%Z ->
  scrape_loop env fuel max_pages start all w
  = (Some (mkOutcome all start BudgetExhausted), w).
Proof.
  intros H. destruct fuel; cbn [scrape_loop];
    by destruct (decide (start < max_pages * 10)%Z).
Qed.

Lemma scrape_loop_step env fuel max_pages start all w :
  (start < max_pages * 10)%Z ->
  scrape_loop env (S fuel) max_pages start all w
  = (scrape_batch env BATCH_SIZE start []
     ≫= finish_batch env (scrape_loop env fuel max_pages) max_pages all) w.
Proof.
  intros H. cbn [scrape_loop].
  by destruct (decide (start < max_pages * 10)%Z).
Qed.

Lemma bind_eq {A B} (m : Eff A) (f : A -> Eff B) w :
  (m ≫= f) w = f (m w).1 (m w).2.
Proof. reflexivity. Qed.

(** The loop returns whenever the fuel covers the pages left below the
    budget, and it is left under [stop_condition]. *)
Lemma scrape_loop_returns env fuel max_pages start all w :
  (max_pages * 10 - start <= 10 * Z.of_nat fuel)%Z ->
  exists out,
    (scrape_loop env fuel max_pages start all w).1 = Some out
    /\ stop_condition env max_pages out
         (scrape_loop env fuel max_pages start all w).2.
Proof.
  revert start all w. induction fuel as [|fuel IH]; intros start all w Hfuel.
  - rewrite scrape_loop_done by lia. eexists; split; [done|].
    unfold stop_condition; cbn. lia.
  - destruct (decide (start < max_pages * 10)%Z) as [Hlt|Hge].
    2:{ rewrite scrape_loop_done by lia. eexists; split; [done|].
        unfold stop_condition; cbn. lia. }
    rewrite scrape_loop_step, bind_eq by done.
    pose proof (scrape_batch_cursor env BATCH_SIZE start [] w) as Hc.
    cbn zeta in Hc. destruct Hc as (_ & Hmove & _ & Hsame & Hscan).
    destruct (scrape_batch env BATCH_SIZE start [] w) as [[c b] w1] eqn:Hb.
    cbn [fst snd] in *. destruct b as [|j b].
    + rewrite finish_batch_empty. eexists; split; [done|].
      unfold stop_condition; cbn. exists start, w. split_and!; [done|done|].
      by apply Hscan.
    + rewrite finish_batch_nonempty. cbn zeta. apply IH.
      destruct Hmove as [->|?]; [|lia]. by specialize (Hsame eq_refl).
Qed.

Lemma save_to_csv_extends env jobs batch_num w :
  extends w (save_to_csv env jobs batch_num w).2.
Proof. rewrite save_to_csv_eq. by eexists. Qed.

Lemma finish_batch_extends env k max_pages all r w :
  (forall c a w', extends w' (k c a w').2) ->
  extends w (finish_batch env k max_pages all r w).2.
Proof.
  intros Hk. destruct r as [c [|j b]].
  - rewrite finish_batch_empty. apply extends_refl.
  - rewrite finish_batch_nonempty. cbn zeta.
    eapply extends_trans; [apply (save_to_csv_extends env (j :: b))|].
    destruct (decide (c < max_pages * 10)%Z).
    + eapply extends_trans; [apply log_extends|apply Hk].
    + apply Hk.
Qed.

Lemma scrape_loop_extends env fuel max_pages start all w :
  extends w (scrape_loop env fuel max_pages start all w).2.
Proof.
  revert start all w. induction fuel as [|fuel IH]; intros start all w;
    destruct (decide (start < max_pages * 10)%Z) as [Hlt|Hge];
    try (rewrite scrape_loop_done by done; apply extends_refl).
  - cbn [scrape_loop]. destruct (decide (start < max_pages * 10)%Z); [|done].
    apply extends_refl.
  - rewrite scrape_loop_step, bind_eq by done.
    eapply extends_trans; [apply scrape_batch_extends|].
    apply finish_batch_extends, IH.
Qed.

Lemma scrape_batch_first_scan env n start batch w :
  extends (log (EGet (page_url start)) w)
          (scrape_batch env (S n) start batch w).2.
Proof.
  destruct (decide ((scrape_page env start w).1 = [])) as [He|Hne].
  - rewrite scrape_batch_break by done. apply extends_refl.
  - rewrite scrape_batch_step by done. cbn zeta.
    eapply extends_trans; [apply scrape_links_extends|].
    eapply extends_trans; [apply log_extends|apply scrape_batch_extends].
Qed.

(** A crawl begun below the budget overshoots it by less than one
    batch. *)
Lemma scrape_loop_cursor_bound env fuel max_pages start all w out :
  (scrape_loop env fuel max_pages start all w).1 = Some out ->
  (cursor out < max_pages * 10 + 10 * Z.of_nat BATCH_SIZE)%Z
  \/ cursor out = start.
Proof.
  revert start all w. induction fuel as [|fuel IH]; intros start all w;
    destruct (decide (start < max_pages * 10)%Z) as [Hlt|Hge];
    try (rewrite scrape_loop_done by done; intros [= <-]; by right).
  - cbn [scrape_loop]. by destruct (decide (start < max_pages * 10)%Z).
  - rewrite scrape_loop_step, bind_eq by done.
    pose proof (scrape_batch_cursor env BATCH_SIZE start [] w) as Hc.
    cbn zeta in Hc. destruct Hc as (_ & _ & Hle & _ & _).
    destruct (scrape_batch env BATCH_SIZE start [] w) as [[c b] w1] eqn:Hb.
    cbn [fst snd] in *. destruct b as [|j b].
    + rewrite finish_batch_empty. intros [= <-]. cbn. lia.
    + rewrite finish_batch_nonempty. cbn zeta.
      intros [?| ->]%IH; left; lia.
Qed.

(** C2 (as the code has it). A crawl always returns, and the loop is left
    only when the cursor has reached [max_pages * 10] or when a batch
    ends without a record, which happens when its first scan returns no
    link and also when scans return links but no extraction of the batch
    returns a record.  A failed fetch never raises out of its component:
    the scanner returns the empty list, the extractor returns nothing and
    the follower returns the sentinel. *)
Theorem crawl_stops_on_budget_or_empty_batch (env : Env) (max_pages : Z)
    (w : World) :
  (exists out,
      (scrape_loop env (Z.to_nat max_pages) max_pages 0 [] w).1 = Some out
      /\ (scrape_in_batches env max_pages w).1 = Some (all_batches out)
      /\ stop_condition env max_pages out
           (scrape_loop env (Z.to_nat max_pages) max_pages 0 [] w).2)
  /\ (forall start w',
         server env (trace w') (page_url start) = Failure ->
         (scrape_page env start w').1 = [])
  /\ (forall url w',
         server env (trace w') (HOST +:+ url) = Failure ->
         (scrape_job_details env url w').1 = None)
  /\ (forall url w',
         server env (trace w') url = Failure ->
         (scrape_click_value env url w').1 = NA).
Proof.
  split_and!.
  - destruct (scrape_loop_returns env (Z.to_nat max_pages) max_pages 0 [] w)
      as (out & Hout & Hstop); [lia|].
    exists out. split_and!; try done.
    unfold scrape_in_batches. rewrite bind_eq. cbn. by rewrite Hout.
  - intros start w' Hs. rewrite scrape_page_eq. cbn. by rewrite Hs.
  - intros url w' Hs. rewrite scrape_job_details_eq. cbn zeta. by rewrite Hs.
  - intros url w' Hs. rewrite scrape_click_value_eq. cbn. by rewrite Hs.
Qed.

Lemma startswith_app p s : PyStr.startswith p (p +:+ s) = true.
Proof.
  induction p as [|a p IH]; [by destruct s|].
  simpl. destruct (decide (a = a)); [exact IH|done].
Qed.

(** C2, refuted as stated. On a site whose every index page lists a
    posting that cannot be fetched, no scan ever returns zero links, yet
    a crawl with a budget of 40 pages stops after its first batch with
    the cursor at 50. *)
Lemma empty_batch_without_empty_page_counterexample :
  (forall c w, (scrape_page Examples.site_listings_down c w).1 <> [])
  /\ (scrape_loop Examples.site_listings_down 40 40 0 [] Examples.w0).1
     = Some (mkOutcome [] 50 EmptyBatch)
  /\ page_requests
       (trace (scrape_loop Examples.site_listings_down 40 40 0 []
                 Examples.w0).2)
     = page_url <$> [0; 10; 20; 30; 40]%Z
  /\ (50 < 40 * 10)%Z.
Proof.
  split_and!.
  - intros c w. rewrite scrape_page_eq. cbn [fst].
    change (server Examples.site_listings_down (trace w) (page_url c))
      with (if Examples.is_index_url (page_url c)
            then Page Examples.index_page else Failure).
    unfold Examples.is_index_url.
    change (page_url c)
      with ((BASE_URL +:+ "?pagination%5Bstart%5D=") +:+ pretty c).
    rewrite startswith_app.
    intros H. apply (f_equal length) in H. by vm_compute in H.
  - by vm_compute.
  - by vm_compute.
  - lia.
Qed.

(** C1. With a budget of one page, on a site whose every index page lists
    a posting, the crawl scans the five cursors 0, 10, 20, 30 and 40 and
    stops with the cursor at 50: the [for] loop of a batch does not look
    at the budget. *)
Theorem budget_overshoot :
  let r := scrape_loop Examples.site_endless 1 1 0 [] Examples.w0 in
  r.1 = Some (mkOutcome (replicate 5 Examples.job_plain) 50 BudgetExhausted)
  /\ (scrape_in_batches Examples.site_endless 1 Examples.w0).1
     = Some (replicate 5 Examples.job_plain)
  /\ page_requests (trace r.2) = page_url <$> [0; 10; 20; 30; 40]%Z
  /\ (1 * 10 < 50)%Z.
Proof. cbn zeta. split_and!; [by vm_compute..|lia]. Qed.

(** C10 (as the code has it). When the scan at a cursor [c] below the
    budget returns no link while the batch holds a record, the [for] loop
    ends with cursor and batch unchanged, the batch is written to a file,
    the crawler pauses, and the next batch begins with a second scan of
    [c]. *)
Theorem rescan_after_short_batch (env : Env) (max_pages : Z) (fuel : nat)
    (all : list Job) (n : nat) (c : Z) (batch : list Job) (w : World) :
  batch <> [] ->
  (scrape_page env c w).1 = [] ->
  (c < max_pages * 10)%Z ->
  rescan_claim env max_pages fuel all n c batch w.
Proof.
  intros Hb Hscan Hlt. unfold rescan_claim.
  rewrite bind_eq, scrape_batch_break by done. cbn [fst snd].
  split; [done|]. destruct batch as [|j b]; [done|].
  rewrite finish_batch_nonempty. cbn zeta.
  destruct (decide (c < max_pages * 10)%Z); [|done].
  rewrite scrape_loop_step, bind_eq, save_to_csv_eq by done. cbn [snd].
  set (w3 := log (ESleep (Fixed PAUSE_BETWEEN_BATCHES)) _).
  destruct (scrape_batch_first_scan env 4 c [] w3) as [r1 Hr1].
  destruct (finish_batch_extends env (scrape_loop env fuel max_pages)
              max_pages (all ++ j :: b)
              (scrape_batch env BATCH_SIZE c [] w3).1
              (scrape_batch env BATCH_SIZE c [] w3).2) as [r2 Hr2].
  { intros. apply scrape_loop_extends. }
  exists (r1 ++ r2). rewrite Hr2. change BATCH_SIZE with 5. rewrite Hr1.
  subst w3. cbn [log trace]. by rewrite <- !app_assoc.
Qed.

Lemma rescan_after_short_batch_witness :
  rescan_claim Examples.site_one_page 2 0 [] 3 10 [Examples.job_plain]
    Examples.after_first_page.2.
Proof.
  apply rescan_after_short_batch; [done|reflexivity|lia].
Defined.

(** C10, refuted as stated. With a budget of one page the second
    iteration of the first batch scans cursor 10, which is already at the
    budget; it returns no link while the batch holds one record, and the
    crawl writes the file and stops: no pause, no second scan. *)
Lemma rescan_counterexample :
  Examples.after_first_page.1 = (10%Z, [Examples.job_plain])
  /\ (scrape_page Examples.site_one_page 10 Examples.after_first_page.2).1 = []
  /\ ~ rescan_claim Examples.site_one_page 1 0 [] 3 10 [Examples.job_plain]
         Examples.after_first_page.2.
Proof.
  split; [reflexivity|]. split; [reflexivity|].
  intros (_ & rest & H). vm_compute in H. discriminate H.
Qed.

(** * Further properties of the script *)

(** ** Traces *)

Lemma since_app w w' r : trace w' = trace w ++ r -> since w w' = r.
Proof. intros H. unfold since. rewrite H. apply drop_app_length. Qed.

Lemma since_refl w : since w w = [].
Proof. apply since_app. by rewrite app_nil_r. Qed.

Lemma since_log e w : since w (log e w) = [e].
Proof. by apply since_app. Qed.

Lemma extends_since w w' : extends w w' -> trace w' = trace w ++ since w w'.
Proof. intros [r H]. by rewrite (since_app _ _ _ H). Qed.

Lemma since_trans w1 w2 w3 :
  extends w1 w2 -> extends w2 w3 ->
  since w1 w3 = since w1 w2 ++ since w2 w3.
Proof.
  intros H12%extends_since H23%extends_since.
  apply since_app. by rewrite H23, H12, app_assoc.
Qed.

Lemma count_events_app p a b :
  count_events p (a ++ b) = count_events p a + count_events p b.
Proof. unfold count_events. by rewrite List.filter_app, length_app. Qed.

Lemma count_events_all p t :
  Forall (fun e => p e = true) t -> count_events p t = length t.
Proof.
  unfold count_events. induction 1 as [|e t He _ IH]; [done|].
  cbn [List.filter]. rewrite He. cbn. by rewrite IH.
Qed.

Lemma count_events_none p t :
  Forall (fun e => p e = false) t -> count_events p t = 0.
Proof.
  unfold count_events. induction 1 as [|e t He _ IH]; [done|].
  cbn [List.filter]. by rewrite He.
Qed.

Lemma gets_only t (q : Event -> bool) :
  (forall url, q (EGet url) = false) ->
  Forall (fun e => is_get e = true) t -> Forall (fun e => q e = false) t.
Proof.
  intros Hq H. eapply Forall_impl; [exact H|].
  intros [url|d|f] He; [apply Hq|done|done].
Qed.

(** ** Strings *)

Lemma take_all n s : String.length s <= n -> PyStr.take n s = s.
Proof.
  revert s; induction n as [|n IH]; intros [|c s]; simpl; try done; try lia.
  intros H. f_equal. apply IH. lia.
Qed.

Lemma take_length_min n s :
  String.length (PyStr.take n s) = Nat.min n (String.length s).
Proof.
  revert s; induction n as [|n IH]; intros [|c s]; simpl; try done.
  by rewrite IH.
Qed.

Lemma take_prefix n s : PyStr.startswith (PyStr.take n s) s = true.
Proof.
  revert s; induction n as [|n IH]; intros [|c s]; simpl; try done.
  destruct (decide (c = c)); [apply IH|done].
Qed.

Lemma length_append a b :
  String.length (a +:+ b) = String.length a + String.length b.
Proof. induction a as [|c a IH]; simpl; [done|]. by rewrite IH. Qed.

Lemma append_inj_r a b s : a +:+ s = b +:+ s -> a = b.
Proof.
  revert b. induction a as [|x a IH]; intros [|y b] H.
  - done.
  - apply (f_equal String.length) in H.
    change (String.length s = S (String.length (b +:+ s))) in H.
    rewrite length_append in H. lia.
  - apply (f_equal String.length) in H.
    change (S (String.length (a +:+ s)) = String.length s) in H.
    rewrite length_append in H. lia.
  - injection H as -> H. f_equal. by apply IH.
Qed.

(** ** What each function does to the world *)

Lemma scrape_click_value_world env url w :
  (scrape_click_value env url w).2 = log (EGet url) w.
Proof. by rewrite scrape_click_value_eq. Qed.

Lemma follow_anchor_world env phrase soup w :
  files (follow_anchor env phrase soup w).2 = files w
  /\ exists t, trace (follow_anchor env phrase soup w).2 = trace w ++ t
               /\ length t <= 1 /\ Forall (fun e => is_get e = true) t.
Proof.
  rewrite follow_anchor_eq. destruct (anchor_target phrase soup) as [link|].
  - rewrite scrape_click_value_world. split; [done|].
    exists [EGet (absolute link)].
    split_and!; [done|cbn; lia|by repeat constructor].
  - split; [done|]. exists []. rewrite app_nil_r.
    split_and!; [done|cbn; lia|constructor].
Qed.

(** The requests of one extraction: the listing first, then at most two
    sub-pages, and none after a failed listing fetch. *)
Lemma scrape_job_details_world env url w :
  files (scrape_job_details env url w).2 = files w
  /\ exists t, trace (scrape_job_details env url w).2
               = trace w ++ EGet (HOST +:+ url) :: t
               /\ length t <= 2 /\ Forall (fun e => is_get e = true) t
               /\ (server env (trace w) (HOST +:+ url) = Failure -> t = []).
Proof.
  rewrite scrape_job_details_eq. cbn zeta.
  destruct (server env (trace w) (HOST +:+ url)) as [|soup]; cbn [snd].
  - split; [done|]. exists []. split_and!; [done|cbn; lia|constructor|done].
  - set (w1 := log (EGet (HOST +:+ url)) w).
    destruct (follow_anchor_world env "dein job" soup w1)
      as (Hf1 & t1 & Ht1 & Hl1 & Hg1).
    destruct (follow_anchor_world env "dein profil" soup
                (follow_anchor env "dein job" soup w1).2)
      as (Hf2 & t2 & Ht2 & Hl2 & Hg2).
    split; [by rewrite Hf2, Hf1|].
    exists (t1 ++ t2). rewrite Ht2, Ht1. subst w1. cbn [log trace].
    split_and!.
    + by rewrite <- !app_assoc.
    + rewrite length_app. lia.
    + by apply Forall_app.
    + done.
Qed.

Lemma scrape_job_details_url env url w job :
  (scrape_job_details env url w).1 = Some job ->
  URL job = HOST +:+ url
  /\ String.length (DeinJob job) <= 200
  /\ String.length (DeinProfil job) <= 200.
Proof.
  intros (soup & _ & ->)%scrape_job_details_some.
  cbn [job_of URL DeinJob DeinProfil]. split; [done|].
  assert (Hlen : forall phrase w', String.length
                   (follow_anchor env phrase soup w').1 <= 200).
  { intros phrase w'. rewrite follow_anchor_eq.
    destruct (anchor_target phrase soup) as [link|]; [|cbn; lia].
    rewrite scrape_click_value_eq. cbn [fst].
    destruct (server env (trace w') (absolute link)); [cbn; lia|].
    apply take_length. }
  split; apply Hlen.
Qed.

(** ** The scanner's addresses *)

(** X1. Index pages at different offsets are requested at different
    addresses. *)
Theorem page_url_distinct (a b : Z) : a <> b -> page_url a <> page_url b.
Proof.
  intros Hne H. apply Hne. unfold page_url in H.
  apply (inj (String.append BASE_URL)) in H.
  apply (inj (String.append "?pagination%5Bstart%5D=")) in H.
  by apply (inj pretty) in H.
Qed.

Lemma page_url_distinct_witness : page_url 0 <> page_url 10.
Proof. apply page_url_distinct. lia. Defined.

(** ** Sub-links *)

(** X2. The address a sub-link is resolved to (lines 80-81 and 90-91)
    always starts with "http", and resolving it again changes nothing. *)
Theorem absolute_idempotent (link : string) :
  PyStr.startswith "http" (absolute link) = true
  /\ absolute (absolute link) = absolute link.
Proof.
  unfold absolute.
  destruct (PyStr.startswith "http" link) eqn:Hl.
  - by rewrite Hl.
  - done.
Qed.

(** X3. After a successful fetch, the snippet is the text of the first
    description container (of the whole page when there is none) cut
    after its first 200 characters: it is a prefix of that text, its
    length is the smaller of 200 and the text's length, and a text of at
    most 200 characters is returned whole. *)
Theorem snippet_is_truncated_text (env : Env) (url : string) (w : World)
    (soup : Bs4.Soup) :
  server env (trace w) url = Page soup ->
  let s := (scrape_click_value env url w).1 in
  PyStr.startswith s (snippet_source soup) = true
  /\ String.length s = Nat.min 200 (String.length (snippet_source soup))
  /\ (String.length (snippet_source soup) <= 200 -> s = snippet_source soup).
Proof.
  intros Hs. cbn zeta. rewrite scrape_click_value_eq, Hs. cbn [fst].
  change (snippet_of soup) with (PyStr.take 200 (snippet_source soup)).
  split_and!.
  - apply take_prefix.
  - apply take_length_min.
  - apply take_all.
Qed.

Lemma snippet_is_truncated_text_witness :
  (scrape_click_value site_description "https://www.stellenwerk.de/x"
     Examples.w0).1 = "Wir suchen dich".
Proof.
  apply (snippet_is_truncated_text site_description
           "https://www.stellenwerk.de/x" Examples.w0 page_with_description
           eq_refl).
  vm_compute. lia.
Defined.

(** ** Requests and delays *)

(** X4. One extraction writes no file and makes between one and three
    requests and nothing else: the listing first, then at most the two
    sub-pages; after a failed listing fetch it makes no further
    request. *)
Theorem extraction_requests (env : Env) (url : string) (w : World) :
  let w' := (scrape_job_details env url w).2 in
  files w' = files w
  /\ head (since w w') = Some (EGet (HOST +:+ url))
  /\ 1 <= length (since w w') <= 3
  /\ Forall (fun e => is_get e = true) (since w w')
  /\ (server env (trace w) (HOST +:+ url) = Failure ->
      since w w' = [EGet (HOST +:+ url)]).
Proof.
  cbn zeta.
  destruct (scrape_job_details_world env url w) as (Hf & t & Ht & Hl & Hg & Hfail).
  rewrite (since_app _ _ _ Ht). split_and!; try done.
  - cbn. lia.
  - cbn. lia.
  - by constructor.
  - intros H. by rewrite (Hfail H).
Qed.

(** The loop over the links of a page: what it does to the world. *)
Lemma scrape_links_world env links batch w :
  let w' := (scrape_links env links batch w).2 in
  files w' = files w
  /\ extends w w'
  /\ count_events is_link_delay (since w w') = length links
  /\ length links <= count_events is_get (since w w') <= 3 * length links
  /\ length (since w w') = count_events is_get (since w w') + length links
  /\ Forall (fun e => is_get e = true \/ is_link_delay e = true) (since w w').
Proof.
  revert batch w. induction links as [|link rest IH]; intros batch w; cbn zeta.
  - cbn [scrape_links]. unfold mret, eff_ret. cbn [snd].
    rewrite since_refl.
    split_and!; try done; try apply extends_refl; try constructor; cbn; lia.
  - rewrite scrape_links_cons. cbn zeta.
    set (r := scrape_job_details env link w).
    set (w2 := log (ESleep (Jittered DELAY)) r.2).
    destruct (scrape_job_details_world env link w) as (Hf & t & Ht & Hl & Hg & _).
    fold r in Hf, Ht.
    destruct (IH (match r.1 with Some j => batch ++ [j] | None => batch end) w2)
      as (Hf' & He' & Hd' & Hg' & Hlen' & Hall').
    set (w3 := (scrape_links env rest _ w2).2) in *.
    assert (He2 : extends w w2).
    { eapply extends_trans; [apply scrape_job_details_extends|apply log_extends]. }
    assert (Hs2 : since w w2 = (EGet (HOST +:+ link) :: t) ++ [ESleep (Jittered DELAY)]).
    { apply since_app. subst w2. cbn [log trace]. by rewrite Ht, app_assoc. }
    assert (Hget : count_events is_get (since w w2) = S (length t)).
    { rewrite Hs2, count_events_app. cbn.
      fold (count_events is_get t). rewrite count_events_all by done. lia. }
    assert (Hdel : count_events is_link_delay (since w w2) = 1).
    { rewrite Hs2, count_events_app. cbn.
      fold (count_events is_link_delay t).
      by rewrite (count_events_none is_link_delay t) by (by apply gets_only). }
    rewrite (since_trans w w2 w3) by done.
    rewrite !count_events_app, !length_app, Hget, Hdel, Hd'.
    split_and!.
    + by rewrite Hf'.
    + by eapply extends_trans.
    + cbn [length]. lia.
    + cbn [length]. lia.
    + cbn [length]. lia.
    + rewrite Hs2, length_app. cbn [length]. lia.
    + apply Forall_app. split; [|done]. rewrite Hs2.
      apply Forall_app. split.
      * constructor; [by left|]. eapply Forall_impl; [exact Hg|]. by left.
      * constructor; [by right|constructor].
Qed.

(** X5. While the links of a page are processed, the crawler sleeps the
    randomized delay exactly once per link, whether or not the extraction
    returned a record; it makes at least one and at most three requests
    per link, does nothing else, and writes no file. *)
Theorem one_delay_per_link (env : Env) (links : list string)
    (batch : list Job) (w : World) :
  let w' := (scrape_links env links batch w).2 in
  files w' = files w
  /\ count_events is_link_delay (since w w') = length links
  /\ length links <= count_events is_get (since w w') <= 3 * length links
  /\ length (since w w') = count_events is_get (since w w') + length links.
Proof.
  cbn zeta. destruct (scrape_links_world env links batch w)
    as (? & _ & ? & ? & ? & _). done.
Qed.

(** X6. Processing the links of a page keeps the records already in the
    batch and appends at most one record per link, in the order of the
    links: the URLs of the new records form a subsequence of the links,
    each prefixed by the host. *)
Theorem batch_keeps_link_order (env : Env) (links : list string)
    (batch : list Job) (w : World) :
  exists new,
    (scrape_links env links batch w).1 = batch ++ new
    /\ sublist (URL <$> new) (String.append HOST <$> links).
Proof.
  revert batch w. induction links as [|link rest IH]; intros batch w.
  - exists []. split; [by rewrite app_nil_r|constructor].
  - rewrite scrape_links_cons. cbn zeta.
    destruct (scrape_job_details env link w).1 as [j|] eqn:Hj.
    + destruct (IH (batch ++ [j]) (log (ESleep (Jittered DELAY))
                                     (scrape_job_details env link w).2))
        as (new & -> & Hsub).
      exists (j :: new). split; [by rewrite <- app_assoc|].
      apply scrape_job_details_url in Hj as [Hj _].
      cbn [fmap list_fmap]. rewrite Hj. by apply sublist_skip.
    + destruct (IH batch (log (ESleep (Jittered DELAY))
                            (scrape_job_details env link w).2))
        as (new & -> & Hsub).
      exists new. split; [done|]. cbn [fmap list_fmap]. by apply sublist_cons.
Qed.

(** ** Files *)

(** X7. Saving touches one file only, and a second save under the same
    name (same batch number, same minute) leaves nothing of the first:
    the files are what the second save alone would have left. *)
Theorem save_to_csv_replaces (env : Env) (jobs1 jobs2 : list Job)
    (batch_num : option Z) (w : World) :
  let w1 := (save_to_csv env jobs1 batch_num w).2 in
  clock env (trace w1) = clock env (trace w) ->
  files (save_to_csv env jobs2 batch_num w1).2
  = files (save_to_csv env jobs2 batch_num w).2
  /\ forall f, f <> csv_filename batch_num (clock env (trace w)) ->
               files w1 !! f = files w !! f.
Proof.
  cbn zeta. rewrite !save_to_csv_eq. cbn [snd files trace]. intros Hc.
  rewrite Hc. split.
  - apply insert_insert_eq.
  - intros f Hf. by apply lookup_insert_ne.
Qed.

Lemma save_to_csv_replaces_witness :
  files (save_to_csv Examples.site_scenario [Examples.job_plain] (Some 2%Z)
           (save_to_csv Examples.site_scenario
              [Examples.job_two_line_title] (Some 2%Z) Examples.w0).2).2
  = files (save_to_csv Examples.site_scenario [Examples.job_plain] (Some 2%Z)
             Examples.w0).2.
Proof.
  apply (save_to_csv_replaces Examples.site_scenario
           [Examples.job_two_line_title] [Examples.job_plain] (Some 2%Z)
           Examples.w0 eq_refl).
Defined.

(** X8. Within one minute, two different non-zero batch numbers give two
    different file names. *)
Theorem csv_filename_distinct (n m : Z) (T : string) :
  n <> 0%Z -> m <> 0%Z -> n <> m ->
  csv_filename (Some n) T <> csv_filename (Some m) T.
Proof.
  intros Hn Hm Hne H. apply Hne. unfold csv_filename in H.
  destruct (decide (n = 0%Z)); [done|]. destruct (decide (m = 0%Z)); [done|].
  apply (inj (String.append "stellenwerk_jobs_batch")) in H.
  apply append_inj_r in H. by apply (inj pretty) in H.
Qed.

Lemma csv_filename_distinct_witness :
  csv_filename (Some 1%Z) "2024-01-01_10-30"
  <> csv_filename (Some 2%Z) "2024-01-01_10-30".
Proof. apply csv_filename_distinct; lia. Defined.

(** ** Edge cases of the crawl *)

(** X9. With a page budget of zero or less the crawl does nothing: no
    request, no delay, no file, and the empty list as result. *)
Theorem crawl_without_budget (env : Env) (max_pages : Z) (w : World) :
  (max_pages <= 0)%Z ->
  scrape_in_batches env max_pages w = (Some [], w).
Proof.
  intros H. unfold scrape_in_batches. rewrite bind_eq.
  rewrite scrape_loop_done by lia. done.
Qed.

Lemma crawl_without_budget_witness :
  scrape_in_batches Examples.site_endless 0 Examples.w0 = (Some [], Examples.w0).
Proof. apply crawl_without_budget. lia. Defined.

(** X10. When the very first scan returns no link (the site is down, or
    its first page lists nothing), the crawl ends after that single
    request: it returns the empty list, sleeps never and writes no
    file. *)
Theorem crawl_of_empty_site (env : Env) (max_pages : Z) (w : World) :
  (0 < max_pages)%Z ->
  (scrape_page env 0 w).1 = [] ->
  scrape_in_batches env max_pages w = (Some [], log (EGet (page_url 0)) w).
Proof.
  intros Hpos Hscan. unfold scrape_in_batches. rewrite bind_eq.
  destruct (Z.to_nat max_pages) as [|fuel] eqn:Hfuel; [lia|].
  rewrite scrape_loop_step, bind_eq by lia.
  change BATCH_SIZE with 5. rewrite scrape_batch_break by done.
  cbn [fst snd]. by rewrite finish_batch_empty.
Qed.

Lemma crawl_of_empty_site_witness :
  scrape_in_batches site_down 40 Examples.w0
  = (Some [], log (EGet (page_url 0)) Examples.w0).
Proof. apply crawl_of_empty_site; [lia|reflexivity]. Defined.

(** ** Invariants of the crawl *)

Lemma scrape_page_world env start w :
  (scrape_page env start w).2 = log (EGet (page_url start)) w.
Proof. by rewrite scrape_page_eq. Qed.

Lemma scrape_page_links_ok env start w :
  Forall listing_link_ok (scrape_page env start w).1.
Proof.
  rewrite scrape_page_eq. cbn [fst].
  destruct (server env (trace w) (page_url start)) as [|soup]; [constructor|].
  apply Forall_forall. intros h Hh. apply list_set_elem in Hh.
  unfold Bs4.select_a_href_contains in Hh. rewrite select_hrefs in Hh.
  apply list_elem_of_In, filter_In in Hh as [Hh Hjob].
  apply filter_In in Hh as [_ Hham]. by split.
Qed.

Lemma scrape_links_records env links batch w :
  Forall listing_link_ok links ->
  exists new,
    (scrape_links env links batch w).1 = batch ++ new
    /\ Forall record_ok new.
Proof.
  revert batch w. induction links as [|link rest IH]; intros batch w Hl.
  - exists []. split; [by rewrite app_nil_r|constructor].
  - apply Forall_cons in Hl as [Hlink Hrest].
    rewrite scrape_links_cons. cbn zeta.
    destruct (scrape_job_details env link w).1 as [j|] eqn:Hj.
    + destruct (IH (batch ++ [j]) (log (ESleep (Jittered DELAY))
                                     (scrape_job_details env link w).2) Hrest)
        as (new & -> & Hnew).
      exists (j :: new). split; [by rewrite <- app_assoc|].
      constructor; [|done].
      apply scrape_job_details_url in Hj as (Hu & ? & ?).
      split; [by exists link|done].
    + apply IH, Hrest.
Qed.

Lemma quiet_events (q : Event -> bool) t :
  (forall e, is_get e = true \/ is_link_delay e = true -> q e = false) ->
  Forall (fun e => is_get e = true \/ is_link_delay e = true) t ->
  count_events q t = 0.
Proof.
  intros Hq H. apply count_events_none. eapply Forall_impl; [exact H|]. exact Hq.
Qed.

Lemma not_page_delay e :
  is_get e = true \/ is_link_delay e = true -> is_page_delay e = false.
Proof. destruct e as [?|[?|?]|?]; cbn; naive_solver. Qed.

Lemma not_write e :
  is_get e = true \/ is_link_delay e = true -> is_write e = false.
Proof. destruct e as [?|[?|?]|?]; cbn; naive_solver. Qed.

(** One batch: pages advanced, records gained, events performed. *)
Lemma scrape_batch_world env n start batch w :
  let r := scrape_batch env n start batch w in
  (exists k, k <= n /\ r.1.1 = (start + 10 * Z.of_nat k)%Z
             /\ count_events is_page_delay (since w r.2) = k)
  /\ (exists new, r.1.2 = batch ++ new /\ Forall record_ok new)
  /\ files r.2 = files w
  /\ count_events is_write (since w r.2) = 0.
Proof.
  revert start batch w. induction n as [|n IH]; intros start batch w; cbn zeta.
  - cbn [scrape_batch]. unfold mret, eff_ret. cbn [fst snd]. rewrite since_refl.
    split_and!; try done.
    + exists 0. split_and!; [done|lia|done].
    + exists []. split; [by rewrite app_nil_r|constructor].
  - destruct (decide ((scrape_page env start w).1 = [])) as [He|Hne].
    + rewrite scrape_batch_break by done. cbn [fst snd]. rewrite since_log.
      split_and!; try done.
      * exists 0. split_and!; [lia|lia|done].
      * exists []. split; [by rewrite app_nil_r|constructor].
    + rewrite scrape_batch_step by done. cbn zeta.
      set (w1 := log (EGet (page_url start)) w).
      set (r := scrape_links env (scrape_page env start w).1 batch w1).
      set (w2 := log (ESleep (Fixed DELAY)) r.2).
      destruct (scrape_links_world env (scrape_page env start w).1 batch w1)
        as (Hf & Hext & _ & _ & _ & Hall). fold r in Hf, Hext, Hall.
      destruct (scrape_links_records env (scrape_page env start w).1 batch w1
                  (scrape_page_links_ok env start w)) as (new1 & Hnew1 & Hok1).
      fold r in Hnew1.
      destruct (IH (start + 10)%Z r.1 w2)
        as ((k & Hk & Hcur & Hdel) & (new2 & Hnew2 & Hok2) & Hf2 & Hw2).
      assert (He2 : extends w w2).
      { eapply extends_trans; [apply log_extends|].
        eapply extends_trans; [exact Hext|apply log_extends]. }
      assert (Hs2 : since w w2
                    = [EGet (page_url start)] ++ since w1 r.2 ++ [ESleep (Fixed DELAY)]).
      { apply since_app. unfold w2. cbn [log trace].
        rewrite (extends_since _ _ Hext). unfold w1 at 1. cbn [log trace].
        by rewrite <- !app_assoc. }
      rewrite (since_trans w w2 _) by (done || apply scrape_batch_extends).
      rewrite !count_events_app, Hs2, !count_events_app, Hdel, Hw2.
      rewrite (quiet_events is_page_delay _ not_page_delay Hall),
        (quiet_events is_write _ not_write Hall).
      split_and!.
      * exists (S k). split_and!; [lia|lia|by cbn].
      * exists (new1 ++ new2). split; [by rewrite Hnew2, Hnew1, app_assoc|].
        by apply Forall_app.
      * by rewrite Hf2.
      * by cbn.
Qed.

Lemma page_state_succ env s i :
  page_state env s (S i) = page_state env (page_step env s) i.
Proof. unfold page_state. apply Nat.iter_succ_r. Qed.

Lemma scrape_batch_step_state env n start batch w :
  (scrape_page env start w).1 <> [] ->
  scrape_batch env (S n) start batch w
  = scrape_batch env n (page_step env (start, batch, w)).1.1
      (page_step env (start, batch, w)).1.2
      (page_step env (start, batch, w)).2.
Proof.
  intros H. rewrite scrape_batch_step by done. cbn zeta.
  unfold page_step. cbn [fst snd]. by rewrite scrape_page_eq.
Qed.

(** The pages of a batch: it makes full page iterations as long as the
    scan lists a link, [n] at most, and ends at the first scan that
    lists none. *)
Lemma scrape_batch_pages env n start batch w :
  exists k,
    k <= n
    /\ (forall i, i < k -> lists_links env (page_state env (start, batch, w) i))
    /\ (k < n -> ~ lists_links env (page_state env (start, batch, w) k))
    /\ scrape_batch env n start batch w
       = let s := page_state env (start, batch, w) k in
         if decide (k < n)
         then ((s.1.1, s.1.2), log (EGet (page_url s.1.1)) s.2)
         else s.
Proof.
  revert start batch w. induction n as [|n IH]; intros start batch w.
  - exists 0. split_and!; [lia|lia|lia|done].
  - destruct (decide ((scrape_page env start w).1 = [])) as [He|Hne].
    + exists 0. split_and!; [lia|lia| |].
      * intros _ Hl. by apply Hl.
      * rewrite scrape_batch_break by done.
        destruct (decide (0 < S n)); [done|lia].
    + destruct (IH (page_step env (start, batch, w)).1.1
                  (page_step env (start, batch, w)).1.2
                  (page_step env (start, batch, w)).2)
        as (k & Hk & Hall & Hstop & Heq).
      assert (Hs : ((page_step env (start, batch, w)).1.1,
                    (page_step env (start, batch, w)).1.2,
                    (page_step env (start, batch, w)).2)
                   = page_step env (start, batch, w)).
      { by destruct (page_step env (start, batch, w)) as [[? ?] ?]. }
      rewrite Hs in Hall, Hstop, Heq.
      exists (S k). split_and!.
      * lia.
      * intros [|i] Hi; [done|]. rewrite page_state_succ. apply Hall. lia.
      * intros Hlt. rewrite page_state_succ. apply Hstop. lia.
      * rewrite scrape_batch_step_state, Heq, page_state_succ by done.
        cbn zeta. destruct (decide (k < n)), (decide (S k < S n)); (done || lia).
Qed.

Lemma page_state_cursor env s i :
  (page_state env s i).1.1 = (s.1.1 + 10 * Z.of_nat i)%Z.
Proof.
  unfold page_state. induction i as [|i IH]; [cbn; lia|].
  rewrite Nat.iter_succ.
  change ((page_step env (Nat.iter i (page_step env) s)).1.1)
    with ((Nat.iter i (page_step env) s).1.1 + 10)%Z.
  rewrite IH. lia.
Qed.

(** X11. A batch of [n] page iterations makes full page iterations as
    long as the scan lists a link, [n] at most, and ends at the first
    scan that lists none: for the number [k] of pages that listed a link,
    the cursor has advanced by ten times [k], the three-second delay was
    slept exactly [k] times, the batch and the world are those after [k]
    full page iterations (plus the one request of the empty scan when
    the batch ended early), and no file was written. *)
Theorem batch_pages (env : Env) (n : nat) (start : Z) (batch : list Job)
    (w : World) :
  let r := scrape_batch env n start batch w in
  let s0 := (start, batch, w) in
  exists k,
    k <= n
    /\ (forall i, i < k -> lists_links env (page_state env s0 i))
    /\ (k < n -> ~ lists_links env (page_state env s0 k))
    /\ r.1.1 = (start + 10 * Z.of_nat k)%Z
    /\ r.1.2 = (page_state env s0 k).1.2
    /\ r.2 = (if decide (k < n)
              then log (EGet (page_url (start + 10 * Z.of_nat k)))
                       (page_state env s0 k).2
              else (page_state env s0 k).2)
    /\ count_events is_page_delay (since w r.2) = k
    /\ count_events is_write (since w r.2) = 0
    /\ files r.2 = files w.
Proof.
  cbn zeta.
  destruct (scrape_batch_pages env n start batch w)
    as (k & Hk & Hall & Hstop & Heq).
  destruct (scrape_batch_world env n start batch w)
    as ((k' & _ & Hcur & Hdel) & _ & Hf & Hw).
  pose proof (page_state_cursor env (start, batch, w) k) as Hpc.
  cbn [fst] in Hpc. cbn zeta in Heq.
  assert (Hc : (scrape_batch env n start batch w).1.1
               = (start + 10 * Z.of_nat k)%Z).
  { rewrite Heq. destruct (decide (k < n)); cbn [fst]; exact Hpc. }
  assert (k' = k) as -> by lia.
  exists k. split_and!; try done.
  - rewrite Heq. by destruct (decide (k < n)).
  - rewrite Heq. destruct (decide (k < n)); [|done]. cbn [snd]. by rewrite Hpc.
Qed.

(** What follows a batch with records: one file write, then the pause
    when the budget is not exhausted. *)
Lemma after_batch_since env max_pages jobs k c w :
  let w2 := (save_to_csv env jobs (Some k) w).2 in
  let w3 := if decide (c < max_pages * 10)%Z
            then log (ESleep (Fixed PAUSE_BETWEEN_BATCHES)) w2 else w2 in
  extends w w3
  /\ since w w3
     = EWrite (csv_filename (Some k) (clock env (trace w)))
       :: (if decide (c < max_pages * 10)%Z
           then [ESleep (Fixed PAUSE_BETWEEN_BATCHES)] else []).
Proof.
  cbn zeta. rewrite save_to_csv_eq. cbn [snd].
  destruct (decide (c < max_pages * 10)%Z).
  - assert (H : forall t e1 e2, (t ++ [e1]) ++ [e2] = t ++ [e1; e2] :> list Event)
      by (intros; by rewrite <- app_assoc).
    split; [eexists; cbn [log trace]; apply H|].
    apply since_app. cbn [log trace]. apply H.
  - split; [by eexists|]. by apply since_app.
Qed.

Lemma scrape_loop_cursor env fuel max_pages start all w out :
  (0 <= start)%Z -> (start `mod` 10 = 0)%Z ->
  (scrape_loop env fuel max_pages start all w).1 = Some out ->
  (cursor out `mod` 10 = 0)%Z
  /\ (start <= cursor out <= Z.max start (max_pages * 10 + 40))%Z.
Proof.
  revert start all w. induction fuel as [|fuel IH]; intros start all w H0 Hm;
    destruct (decide (start < max_pages * 10)%Z) as [Hlt|Hge];
    try (rewrite scrape_loop_done by done; intros [= <-]; cbn; lia).
  - cbn [scrape_loop]. by destruct (decide (start < max_pages * 10)%Z).
  - rewrite scrape_loop_step, bind_eq by done.
    destruct (scrape_batch_world env BATCH_SIZE start [] w)
      as ((k & Hk & Hcur & _) & _).
    change BATCH_SIZE with 5 in *.
    destruct (scrape_batch env 5 start [] w) as [[c b] w1] eqn:Hb.
    cbn [fst snd] in *.
    apply Z.mod_divide in Hm; [|lia]. destruct Hm as [q Hq].
    assert (Hc : (c `mod` 10 = 0)%Z).
    { apply Z.mod_divide; [lia|]. exists (q + Z.of_nat k)%Z. lia. }
    assert (start <= max_pages * 10 - 10)%Z by lia.
    destruct b as [|j b].
    + rewrite finish_batch_empty. intros [= <-]. cbn. lia.
    + rewrite finish_batch_nonempty. cbn zeta.
      intros [? ?]%IH; [lia|lia|done].
Qed.

Lemma scrape_loop_records env fuel max_pages start all w out :
  (scrape_loop env fuel max_pages start all w).1 = Some out ->
  exists added,
    all_batches out = all ++ added
    /\ Forall record_ok added
    /\ count_events is_write
         (since w (scrape_loop env fuel max_pages start all w).2)
       <= length added
    /\ (count_events is_write
          (since w (scrape_loop env fuel max_pages start all w).2) = 0
        <-> added = []).
Proof.
  revert start all w. induction fuel as [|fuel IH]; intros start all w;
    destruct (decide (start < max_pages * 10)%Z) as [Hlt|Hge];
    try (rewrite scrape_loop_done by done; intros [= <-]; cbn [all_batches snd];
         rewrite since_refl; exists []; rewrite app_nil_r;
         split_and!; [done|constructor|done|done]).
  - cbn [scrape_loop]. by destruct (decide (start < max_pages * 10)%Z).
  - rewrite scrape_loop_step, bind_eq by done.
    destruct (scrape_batch_world env BATCH_SIZE start [] w)
      as (_ & (new & Hnew & Hok) & _ & Hw).
    pose proof (scrape_batch_extends env BATCH_SIZE start [] w) as Hext.
    destruct (scrape_batch env BATCH_SIZE start [] w) as [[c b] w1] eqn:Hb.
    cbn [fst snd] in *. cbn [app] in Hnew. subst new.
    destruct b as [|j b].
    + rewrite finish_batch_empty. intros [= <-]. cbn [all_batches snd].
      exists []. rewrite app_nil_r, Hw. split_and!; [done|constructor|done|done].
    + rewrite finish_batch_nonempty. cbn zeta.
      destruct (after_batch_since env max_pages (j :: b) (c `div` 50 + 1)%Z c w1)
        as [Hext3 Hs3]. cbn zeta in Hext3, Hs3.
      set (w3 := if decide (c < max_pages * 10)%Z then _ else _) in *.
      intros Hout. destruct (IH c (all ++ j :: b) w3 Hout)
        as (added & Hall & Hadd & Hle & Hiff).
      set (w4 := (scrape_loop env fuel max_pages c (all ++ j :: b) w3).2) in *.
      assert (Hcount : count_events is_write (since w w4)
                       = S (count_events is_write (since w3 w4))).
      { rewrite (since_trans w w1 w4), (since_trans w1 w3 w4), Hs3;
          try done; try apply scrape_loop_extends.
        - rewrite !count_events_app, Hw.
          destruct (decide (c < max_pages * 10)%Z); by cbn.
        - eapply extends_trans; [exact Hext3|apply scrape_loop_extends]. }
      exists ((j :: b) ++ added). rewrite Hcount.
      split_and!.
      * by rewrite Hall, app_assoc.
      * by apply Forall_app.
      * rewrite length_app. cbn [length]. lia.
      * split; [done|]. by intros [=].
Qed.

Lemma scrape_loop_files env fuel max_pages start all w :
  (0 <= start)%Z ->
  Forall write_ok (since w (scrape_loop env fuel max_pages start all w).2).
Proof.
  revert start all w. induction fuel as [|fuel IH]; intros start all w H0;
    destruct (decide (start < max_pages * 10)%Z) as [Hlt|Hge];
    try (rewrite scrape_loop_done by done; cbn [snd]; rewrite since_refl;
         constructor).
  - cbn [scrape_loop]. destruct (decide (start < max_pages * 10)%Z); [|done].
    unfold mret, eff_ret. cbn [snd]. rewrite since_refl. constructor.
  - rewrite scrape_loop_step, bind_eq by done.
    destruct (scrape_batch_world env BATCH_SIZE start [] w)
      as ((k & _ & Hcur & _) & _ & _ & Hw).
    pose proof (scrape_batch_extends env BATCH_SIZE start [] w) as Hext.
    destruct (scrape_batch env BATCH_SIZE start [] w) as [[c b] w1] eqn:Hb.
    cbn [fst snd] in *.
    assert (Hquiet : Forall write_ok (since w w1)).
    { apply Forall_forall. intros e He. destruct e as [?|?|f]; try done.
      exfalso. unfold count_events in Hw.
      assert (EWrite f ∈ List.filter is_write (since w w1)) as Hin.
      { apply list_elem_of_In, filter_In. split; [by apply list_elem_of_In|done]. }
      destruct (List.filter is_write (since w w1)); [|done].
      by apply elem_of_nil in Hin. }
    destruct b as [|j b].
    + by rewrite finish_batch_empty.
    + rewrite finish_batch_nonempty. cbn zeta.
      destruct (after_batch_since env max_pages (j :: b) (c `div` 50 + 1)%Z c w1)
        as [Hext3 Hs3]. cbn zeta in Hext3, Hs3.
      set (w3 := if decide (c < max_pages * 10)%Z then _ else _) in *.
      rewrite (since_trans w w1 _), (since_trans w1 w3 _), Hs3;
        try done; try apply scrape_loop_extends.
      2:{ eapply extends_trans; [exact Hext3|apply scrape_loop_extends]. }
      apply Forall_app. split; [done|]. apply Forall_app. split.
      * constructor.
        -- exists (c `div` 50 + 1)%Z, (clock env (trace w1)). split.
           ++ assert (0 <= c `div` 50)%Z; [|lia]. apply Z.div_pos; lia.
           ++ unfold csv_filename.
              destruct (decide (c `div` 50 + 1 = 0)%Z) as [E|]; [|done].
              assert (0 <= c `div` 50)%Z; [|lia]. apply Z.div_pos; lia.
        -- destruct (decide (c < max_pages * 10)%Z); repeat constructor.
      * apply IH. lia.
Qed.

Lemma scrape_in_batches_world env max_pages w :
  scrape_in_batches env max_pages w
  = (all_batches <$> (scrape_loop env (Z.to_nat max_pages) max_pages 0 [] w).1,
     (scrape_loop env (Z.to_nat max_pages) max_pages 0 [] w).2).
Proof. reflexivity. Qed.


(** X13. A crawl ends with its cursor at a multiple of ten between 0 and
    [max_pages * 10 + 40]: the budget is overshot by four pages at
    most. *)
Theorem crawl_cursor_bound (env : Env) (max_pages : Z) (w : World) :
  exists out,
    (scrape_loop env (Z.to_nat max_pages) max_pages 0 [] w).1 = Some out
    /\ (cursor out `mod` 10 = 0)%Z
    /\ (0 <= cursor out <= Z.max 0 (max_pages * 10 + 40))%Z.
Proof.
  destruct (scrape_loop_returns env (Z.to_nat max_pages) max_pages 0 [] w)
    as (out & Hout & _); [lia|].
  exists out. split; [done|].
  apply (scrape_loop_cursor env (Z.to_nat max_pages) max_pages 0%Z [] w out);
    [lia|done|done].
Qed.

(** X14. Every file a crawl writes has a batched name,
    [stellenwerk_jobs_batch<k>_<minute>.csv] with [k] at least 1: the
    unbatched name is never used by the crawler. *)
Theorem crawl_file_names (env : Env) (max_pages : Z) (w : World) :
  Forall write_ok (since w (scrape_in_batches env max_pages w).2).
Proof. rewrite scrape_in_batches_world. cbn [snd]. by apply scrape_loop_files. Qed.

(** X15. A crawl writes at most as many files as it returns records, and
    it writes no file exactly when it returns no record: every returned
    record went through a save. *)
Theorem crawl_writes_and_records (env : Env) (max_pages : Z) (w : World) :
  exists jobs,
    (scrape_in_batches env max_pages w).1 = Some jobs
    /\ count_events is_write (since w (scrape_in_batches env max_pages w).2)
       <= length jobs
    /\ (count_events is_write
          (since w (scrape_in_batches env max_pages w).2) = 0
        <-> jobs = []).
Proof.
  rewrite scrape_in_batches_world. cbn [fst snd].
  destruct (scrape_loop_returns env (Z.to_nat max_pages) max_pages 0 [] w)
    as (out & Hout & _); [lia|].
  destruct (scrape_loop_records _ _ _ _ _ _ _ Hout) as (added & Hall & _ & Hle & Hiff).
  exists added. rewrite Hout. cbn [fmap option_fmap option_map].
  cbn [app] in Hall. by rewrite Hall.
Qed.

(** ** White space around extracted text *)

Lemma lstrip_tight s : starts_tight (PyStr.lstrip s).
Proof.
  induction s as [|c s IH]; [done|]. cbn [PyStr.lstrip].
  by destruct (PyStr.isspace c) eqn:Hc.
Qed.

Lemma lstrip_of_tight s : starts_tight s -> PyStr.lstrip s = s.
Proof. destruct s as [|c s]; [done|]. cbn. by intros ->. Qed.

Lemma rstrip_idem s : PyStr.rstrip (PyStr.rstrip s) = PyStr.rstrip s.
Proof.
  induction s as [|c s IH]; [done|]. cbn [PyStr.rstrip].
  destruct (PyStr.rstrip s) as [|d r] eqn:Hr.
  - destruct (PyStr.isspace c) eqn:Hc; [done|]. cbn. by rewrite Hc.
  - cbn [PyStr.rstrip] in *. by rewrite IH.
Qed.

Lemma rstrip_starts_tight s : starts_tight s -> starts_tight (PyStr.rstrip s).
Proof.
  destruct s as [|c s]; [done|]. cbn [PyStr.rstrip starts_tight]. intros Hc.
  destruct (PyStr.rstrip s); [by rewrite Hc|done].
Qed.

Lemma strip_tight s : starts_tight (PyStr.strip s).
Proof. apply rstrip_starts_tight, lstrip_tight. Qed.

Lemma strip_idem s : PyStr.strip (PyStr.strip s) = PyStr.strip s.
Proof.
  unfold PyStr.strip at 1. rewrite lstrip_of_tight by apply strip_tight.
  apply rstrip_idem.
Qed.

Lemma rstrip_app a b :
  PyStr.rstrip b = b -> b <> EmptyString ->
  PyStr.rstrip (a +:+ b) = a +:+ b.
Proof.
  intros Hb Hne. induction a as [|c a IH]; [exact Hb|].
  change (PyStr.rstrip (String c (a +:+ b)) = String c (a +:+ b)).
  cbn [PyStr.rstrip]. rewrite IH.
  destruct (a +:+ b) as [|d r] eqn:Hab; [|done].
  destruct a; [done|discriminate].
Qed.

Lemma strip_app a b :
  PyStr.strip a = a -> PyStr.strip b = b ->
  a <> EmptyString -> b <> EmptyString ->
  PyStr.strip (a +:+ b) = a +:+ b.
Proof.
  intros Ha Hb Hna Hnb. unfold PyStr.strip.
  assert (starts_tight a) by (rewrite <- Ha; apply strip_tight).
  assert (PyStr.rstrip b = b).
  { rewrite <- Hb at 1. unfold PyStr.strip. rewrite rstrip_idem. exact Hb. }
  rewrite lstrip_of_tight; [by apply rstrip_app|].
  by destruct a.
Qed.

Lemma stripped_strings_tight nodes :
  Forall (fun v => PyStr.strip v = v /\ v <> EmptyString)
         (Bs4.stripped_strings nodes).
Proof.
  unfold Bs4.stripped_strings. induction nodes as [|n nodes IH]; [constructor|].
  cbn [omap list_omap]. destruct n as [s|? ? ?]; [|done].
  cbn zeta. destruct (PyStr.nonempty (PyStr.strip s)) eqn:Hs; [|done].
  constructor; [|done]. split; [apply strip_idem|].
  by destruct (PyStr.strip s).
Qed.

Lemma join_tight l :
  Forall (fun v => PyStr.strip v = v /\ v <> EmptyString) l ->
  PyStr.strip (PyStr.join "" l) = PyStr.join "" l
  /\ (l <> [] -> PyStr.join "" l <> EmptyString).
Proof.
  induction 1 as [|x l [Hx Hnx] Hl [IH1 IH2]]; [done|].
  destruct l as [|y l]; [done|].
  change (PyStr.join "" (x :: y :: l)) with (x +:+ PyStr.join "" (y :: l)).
  split.
  - apply strip_app; try done. by apply IH2.
  - intros _. by destruct x.
Qed.

Lemma text_or_na_stripped elem :
  PyStr.strip (text_or_na elem) = text_or_na elem.
Proof.
  destruct elem as [e|]; [|done]. cbn [text_or_na]. unfold Bs4.get_text.
  apply join_tight, stripped_strings_tight.
Qed.

(** X16. The five structured fields of a record never carry leading or
    trailing white space: stripping any of them again changes nothing. *)
Theorem structured_fields_stripped (env : Env) (url : string) (w : World)
    (job : Job) :
  (scrape_job_details env url w).1 = Some job ->
  Forall (fun v => PyStr.strip v = v)
    [Title job; Company job; Location job; Salary job; PostedDate job].
Proof.
  intros (soup & _ & ->)%scrape_job_details_some.
  cbn [job_of Title Company Location Salary PostedDate].
  repeat (constructor; [apply text_or_na_stripped|]). constructor.
Qed.

Lemma structured_fields_stripped_witness :
  exists job,
    (scrape_job_details site_padded_heading Examples.listing_link
       Examples.w0).1 = Some job
    /\ Title job = "BackendEngineer"
    /\ Forall (fun v => PyStr.strip v = v)
         [Title job; Company job; Location job; Salary job; PostedDate job].
Proof.
  eexists. split; [reflexivity|]. split; [reflexivity|].
  apply (structured_fields_stripped site_padded_heading Examples.listing_link
           Examples.w0). reflexivity.
Defined.
